(** * kubectl-peek: the pagination controller, the resolver and the validation

    A shallow embedding of [main.go].  The file holds two concatenated
    versions of the program: the first one negotiates server-side [Table]
    output through a REST client, the second one lists through the dynamic
    client and prints with the [printFlags] printer.  [Validate] and
    [getResourceGVR] are textually the same in both and are embedded once;
    [Complete], [Run] and the command's [RunE] closure are embedded per
    version, in the modules [RestTable] and [Dynamic]. *)

From Stdlib Require Import String Ascii List ZArith NArith Bool Lia.
Import ListNotations.
Local Open Scope list_scope.
Local Open Scope string_scope.

(** ** Go values *)

(** A Go [error] value, identified with its message. *)
Definition error := string.

(** A Go [rune] (int32 code point). *)
Definition rune := Z.

(** The [(value, err)] pair a fallible Go call returns. *)
Inductive result (A : Type) : Type :=
| Ok (a : A)
| Err (e : error).
Arguments Ok {A} a.
Arguments Err {A} e.

(** The newline and double-quote bytes, which Go writes as escapes. *)
Definition nl : string := String "010"%char EmptyString.
Definition dquote : ascii := "034"%char.

(** ** Kubernetes data, reduced to the fields [main.go] touches *)

Record GroupVersion := { gvGroup : string; gvVersion : string }.

Record GroupVersionResource := {
  Group : string;
  Version : string;
  Resource : string
}.

(** [gvr.GroupVersion()] *)
Definition GroupVersion_of (gvr : GroupVersionResource) : GroupVersion :=
  {| gvGroup := Group gvr; gvVersion := Version gvr |}.

Record ListOptions := {
  Limit : Z;
  Continue : string;
  LabelSelector : string
}.

(** One row of a [metav1.Table]: its cells. *)
Definition TableRow := list string.

(** [metav1.Table]: the rows and the continue token of its list metadata. *)
Record Table := {
  Rows : list TableRow;
  tableContinue : string
}.

(** An [unstructured.Unstructured] object, opaque here. *)
Definition Unstructured := string.

(** [unstructured.UnstructuredList]. *)
Record UnstructuredList := {
  Items : list Unstructured;
  GetContinue : string
}.

(** The [rest.Config] fields [newRestClient] sets; the rest is carried along
    unread in [cfgBase]. *)
Record Config := {
  cfgBase : string;
  cfgGroupVersion : option GroupVersion;
  APIPath : string;
  AcceptContentTypes : string
}.

(** [meta.RESTMapper], used through [ResourceFor] only. *)
Definition RESTMapper := GroupVersionResource -> result GroupVersionResource.

(** A [printers.ResourcePrinter] applied to a list: [PrintObj]'s error. *)
Definition ResourcePrinter := UnstructuredList -> option error.

(** [genericclioptions.PrintFlags]: the [-o] value and what [ToPrinter]
    answers for it. *)
Record PrintFlags := {
  OutputFormat : string;
  ToPrinter : result ResourcePrinter
}.

(** [genericclioptions.ConfigFlags], through the three calls [Complete]
    makes on it. *)
Record ConfigFlags := {
  ToRESTMapper : result RESTMapper;
  ToRawKubeConfigLoader_Namespace : result string;
  ToRESTConfig : result Config
}.

(** [PeekOptions].  [restConfig] exists in the first version only; the
    [dynamicClient] handle is not represented, the responses of the server
    come from the environment below. *)
Record PeekOptions := {
  configFlags : ConfigFlags;
  printFlags : PrintFlags;
  resource : string;
  limit : Z;
  continueToken : string;
  interactive : bool;
  selector : string;
  allNamespaces : bool;
  namespace : string;
  mapper : RESTMapper;
  restConfig : Config
}.

Definition DefaultPeekLimit : Z := 10.

(** [o.resource = args[0]] *)
Definition set_resource (o : PeekOptions) (r : string) : PeekOptions :=
  {| configFlags := configFlags o; printFlags := printFlags o;
     resource := r; limit := limit o; continueToken := continueToken o;
     interactive := interactive o; selector := selector o;
     allNamespaces := allNamespaces o; namespace := namespace o;
     mapper := mapper o; restConfig := restConfig o |}.

(** The three assignments of [Complete]. *)
Definition set_calculated (o : PeekOptions) (m : RESTMapper) (ns : string)
    (cfg : Config) : PeekOptions :=
  {| configFlags := configFlags o; printFlags := printFlags o;
     resource := resource o; limit := limit o;
     continueToken := continueToken o; interactive := interactive o;
     selector := selector o; allNamespaces := allNamespaces o;
     namespace := ns; mapper := m; restConfig := cfg |}.

(** ** The Go library functions the program calls

    Their code is not part of the repository.  The ASCII behaviour of
    [strings.ToLower], [strings.Split] and the [%q] verb is written out
    below; what depends on Unicode tables, on the transport or on the
    printers is taken from this record. *)
Record Library := {
  (* [strings.Map(unicode.ToLower, s)], for [s] with a non-ASCII byte *)
  unicodeToLower : string -> string;
  (* the [%q] escaping of a string that starts with a non-ASCII byte *)
  escapeNonASCII : string -> string;
  (* the error of [rest.RESTClientFor(&config)] *)
  RESTClientFor : Config -> option error;
  (* the error of [dynamic.NewForConfig(config)] *)
  NewForConfig : Config -> option error;
  (* the error of [printers.NewTablePrinter(...).PrintObj(table, o.Out)] *)
  TablePrinter : Table -> option error
}.

(** ** Strings *)

Definition byte (c : ascii) : N := N_of_ascii c.

(** [c < utf8.RuneSelf] *)
Definition isASCII (c : ascii) : bool := (byte c <? 128)%N.

(** ['A' <= c && c <= 'Z'] *)
Definition isUpper (c : ascii) : bool :=
  ((65 <=? byte c) && (byte c <=? 90))%N.

(** [c += 'a' - 'A'] on upper-case bytes *)
Definition lowerByte (c : ascii) : ascii :=
  if isUpper c then ascii_of_N (byte c + 32) else c.

Fixpoint allBytes (p : ascii -> bool) (s : string) : bool :=
  match s with
  | EmptyString => true
  | String c rest => p c && allBytes p rest
  end.

Fixpoint mapBytes (f : ascii -> ascii) (s : string) : string :=
  match s with
  | EmptyString => EmptyString
  | String c rest => String (f c) (mapBytes f rest)
  end.

(** [strings.Split(s, sep)] for a one-byte separator. *)
Fixpoint Split (s : string) (sep : ascii) : list string :=
  match s with
  | EmptyString => [EmptyString]
  | String c rest =>
      if Ascii.eqb c sep then EmptyString :: Split rest sep
      else match Split rest sep with
           | [] => [String c EmptyString]
           | p :: ps => String c p :: ps
           end
  end.

(** [strings.Count(s, sep)] for a one-byte separator. *)
Fixpoint Count (s : string) (sep : ascii) : nat :=
  match s with
  | EmptyString => 0
  | String c rest => (if Ascii.eqb c sep then 1 else 0) + Count rest sep
  end.

Fixpoint HasPrefix (s p : string) {struct p} : bool :=
  match p, s with
  | EmptyString, _ => true
  | String a p', String b s' => Ascii.eqb a b && HasPrefix s' p'
  | String _ _, EmptyString => false
  end.

(** [strings.Contains(s, sub)] *)
Fixpoint Contains (s sub : string) : bool :=
  HasPrefix s sub ||
  match s with
  | EmptyString => false
  | String _ rest => Contains rest sub
  end.

(** [lowerhex[n]] *)
Definition lowerhex (n : N) : ascii :=
  nth (N.to_nat n) (list_ascii_of_string "0123456789abcdef") "0"%char.

(** How [strconv] escapes one byte below [utf8.RuneSelf] inside double
    quotes: the double quote and the backslash are backslashed, printable
    bytes are kept, the rest becomes a letter escape or a two-digit
    hexadecimal escape. *)
Definition escapeByte (c : ascii) : string :=
  let n := byte c in
  if ((n =? 34) || (n =? 92))%N then String "\"%char (String c EmptyString)
  else if ((32 <=? n) && (n <? 127))%N then String c EmptyString
  else match n with
       | 7%N => "\a"
       | 8%N => "\b"
       | 12%N => "\f"
       | 10%N => "\n"
       | 13%N => "\r"
       | 9%N => "\t"
       | 11%N => "\v"
       | _ => "\x" ++ String (lowerhex (n / 16)) (String (lowerhex (n mod 16)) EmptyString)
       end.

(** A user string every byte of which [%q] leaves alone. *)
Definition plainByte (c : ascii) : bool :=
  ((32 <=? byte c) && (byte c <? 127) && negb (byte c =? 34) && negb (byte c =? 92))%N.

Section Strings.
Variable lib : Library.

(** [strings.ToLower]: the ASCII fast path, else the Unicode mapping. *)
Definition ToLower (s : string) : string :=
  if allBytes isASCII s then mapBytes lowerByte s
  else unicodeToLower lib s.

Fixpoint escape (s : string) : string :=
  match s with
  | EmptyString => EmptyString
  | String c rest =>
      if isASCII c then escapeByte c ++ escape rest
      else escapeNonASCII lib s
  end.

(** [strconv.Quote], which the [%q] verb applies to a string. *)
Definition Quote (s : string) : string :=
  String dquote (escape s ++ String dquote EmptyString).
End Strings.

(** ** Validation and resource resolution (the same text in both versions) *)

(** [fmt.Errorf] with a format that ends in [%q]. *)
Definition Errorf_q (lib : Library) (prefix arg : string) : error :=
  prefix ++ Quote lib arg.

Definition msg_limit : error := "--limit must be a positive number".
Definition msg_together : error :=
  "cannot use --interactive and --continue flags together".
Definition msg_format : error :=
  "interactive mode is only supported for standard and wide table output".
Definition msg_no_args : error :=
  "you must specify the type of resource to peek".
Definition msg_many_args : error := "only one resource type is allowed".
Definition msg_unknown : string := "the server doesn't have a resource type ".

(** [Validate]; [None] is Go's [nil]. *)
Definition Validate (o : PeekOptions) : option error :=
  if (limit o <=? 0)%Z then Some msg_limit
  else if interactive o && negb (continueToken o =? "") then Some msg_together
  else if interactive o &&
          (negb (OutputFormat (printFlags o) =? "") &&
           negb (OutputFormat (printFlags o) =? "wide")) then Some msg_format
  else None.

(** The partial GVR [getResourceGVR] builds from the lower-cased argument. *)
Definition gvrToFind (resourceArg : string) : GroupVersionResource :=
  let parts := Split resourceArg "."%char in
  if (List.length parts =? 2)%nat
  then {| Group := nth 1 parts ""; Version := ""; Resource := nth 0 parts "" |}
  else {| Group := ""; Version := ""; Resource := resourceArg |}.

Definition getResourceGVR (lib : Library) (o : PeekOptions)
    : result GroupVersionResource :=
  let resourceArg := ToLower lib (resource o) in
  match mapper o (gvrToFind resourceArg) with
  | Err _ => Err (Errorf_q lib msg_unknown (resource o))
  | Ok gvr => Ok gvr
  end.

(** [main]: the exit status for what [cmd.Execute] returned. *)
Definition exitCode (err : option error) : Z :=
  match err with
  | Some _ => 1
  | None => 0
  end.

(** ** Effects

    The environment of one invocation is the list of what the successive
    list requests return and the list of what the successive
    [bufio.NewReader(os.Stdin).ReadRune()] calls return; once the latter is
    used up standard input is closed and a read fails with [io.EOF].  A
    run produces the trace of its calls and writes, in order. *)

Definition io_EOF : error := "EOF".

Section Effects.
(** The type of a page: [Table] or [UnstructuredList]. *)
Variable Page : Type.

Inductive Event : Type :=
| EvList (gvr : GroupVersionResource) (ns : string) (opts : ListOptions)
    (r : result Page)           (* the list request and its answer *)
| EvPrintObj (p : Page)         (* printer.PrintObj(page, o.Out) *)
| EvOut (s : string)            (* fmt.Fprintln / fmt.Fprintf on o.Out *)
| EvStdout (s : string)         (* fmt.Println on os.Stdout *)
| EvReadRune (r : result rune). (* reader.ReadRune() *)

Definition M (A : Type) : Type :=
  list (result rune) -> A * list (result rune) * list Event.

Definition ret {A} (a : A) : M A := fun stdin => (a, stdin, []).

Definition bind {A B} (m : M A) (f : A -> M B) : M B :=
  fun stdin =>
    let '(a, stdin1, w1) := m stdin in
    let '(b, stdin2, w2) := f a stdin1 in
    (b, stdin2, (w1 ++ w2)%list).

Definition emit (e : Event) : M unit := fun stdin => (tt, stdin, [e]).

(** [fmt.Fprintln(o.Out, s)] *)
Definition Fprintln (s : string) : M unit := emit (EvOut (s ++ nl)).

(** [fmt.Fprintf(o.Out, s)], the format already expanded *)
Definition Fprintf (s : string) : M unit := emit (EvOut s).

(** [fmt.Println()] *)
Definition Println : M unit := emit (EvStdout nl).

(** [bufio.NewReader(os.Stdin).ReadRune()] *)
Definition ReadRune : M (result rune) :=
  fun stdin =>
    match stdin with
    | [] => (Err io_EOF, [], [EvReadRune (Err io_EOF)])
    | r :: rest => (r, rest, [EvReadRune r])
    end.

(** The local variables of [Run] that live across iterations. *)
Record SessionState := {
  st_continueToken : string;
  isFirstRequest : bool
}.

(** How one pass through the body of [for { ... }] ends: a [return], or
    the end of the body with the updated locals. *)
Inductive Outcome : Type :=
| Return (err : option error)
| Next (st : SessionState).

(** Where a run stands when the environment has nothing more to give:
    returned, or waiting for the answer to its next list request. *)
Inductive Status : Type :=
| Terminated (err : option error)
| Pending (st : SessionState).

Record Execution := {
  status : Status;
  unread : list (result rune);
  trace : list Event
}.

Definition after (w : list Event) (x : Execution) : Execution :=
  {| status := status x; unread := unread x; trace := (w ++ trace x)%list |}.

(** [for { body }], fed with the answers of the list requests. *)
Fixpoint forever (body : SessionState -> result Page -> M Outcome)
    (responses : list (result Page)) (st : SessionState)
    (stdin : list (result rune)) : Execution :=
  match responses with
  | [] => {| status := Pending st; unread := stdin; trace := [] |}
  | r :: rest =>
      let '(out, stdin1, w1) := body st r stdin in
      match out with
      | Return err =>
          {| status := Terminated err; unread := stdin1; trace := w1 |}
      | Next st1 => after w1 (forever body rest st1 stdin1)
      end
  end.

(** A [return err] before the loop is entered. *)
Definition failed (err : error) (stdin : list (result rune)) : Execution :=
  {| status := Terminated (Some err); unread := stdin; trace := [] |}.

Record Env := {
  responses : list (result Page);
  keys : list (result rune)
}.

(** The list requests of a trace, with their answers. *)
Fixpoint fetches (tr : list Event) : list (ListOptions * result Page) :=
  match tr with
  | [] => []
  | EvList _ _ opts r :: rest => (opts, r) :: fetches rest
  | _ :: rest => fetches rest
  end.

(** What a trace wrote, on [o.Out] and on [os.Stdout]. *)
Fixpoint written (tr : list Event) : list string :=
  match tr with
  | [] => []
  | EvOut s :: rest => s :: written rest
  | EvStdout s :: rest => s :: written rest
  | _ :: rest => written rest
  end.

(** The keystroke reads of a trace. *)
Fixpoint reads (tr : list Event) : list (result rune) :=
  match tr with
  | [] => []
  | EvReadRune r :: rest => r :: reads rest
  | _ :: rest => reads rest
  end.

(** The pages a trace handed to the printer. *)
Fixpoint printed (tr : list Event) : list Page :=
  match tr with
  | [] => []
  | EvPrintObj p :: rest => p :: printed rest
  | _ :: rest => printed rest
  end.
End Effects.

Arguments EvList {Page}.
Arguments EvPrintObj {Page}.
Arguments EvOut {Page}.
Arguments EvStdout {Page}.
Arguments EvReadRune {Page}.
Arguments ret {Page A}.
Arguments bind {Page A B}.
Arguments emit {Page}.
Arguments Fprintln {Page}.
Arguments Fprintf {Page}.
Arguments Println {Page}.
Arguments ReadRune {Page}.
Arguments status {Page}.
Arguments unread {Page}.
Arguments trace {Page}.
Arguments after {Page}.
Arguments forever {Page}.
Arguments failed {Page}.
Arguments responses {Page}.
Arguments keys {Page}.
Arguments fetches {Page}.
Arguments written {Page}.
Arguments reads {Page}.
Arguments printed {Page}.

Declare Scope go_scope.
Notation "x <- m ;; k" := (bind m (fun x => k))
  (at level 100, m at next level, right associativity) : go_scope.
Notation "m ;; k" := (bind m (fun _ => k))
  (at level 100, right associativity) : go_scope.

(** The texts the controller writes. *)
Definition txt_no_resources : string := "No resources found." ++ nl.
Definition txt_end_of_list : string := nl ++ "--- End of list ---" ++ nl.
Definition txt_prompt : string := nl ++ "--- [n] next page, [q] quit: ".
Definition txt_token (tok : string) : string :=
  nl ++ "Continue Token: " ++ tok ++ nl.

(** The rune ['n']. *)
Definition rune_n : rune := 110%Z.

(** ** First version: Table output through a REST client *)

Module RestTable.
Section Program.
Variable lib : Library.
Local Open Scope go_scope.

(** [Complete] builds the mapper, the namespace and the clients from the
    local configuration; none of its calls sends a request. *)
Definition Complete (o : PeekOptions) : result PeekOptions :=
  match ToRESTMapper (configFlags o) with
  | Err err => Err err
  | Ok m =>
      match ToRawKubeConfigLoader_Namespace (configFlags o) with
      | Err err => Err err
      | Ok ns =>
          match ToRESTConfig (configFlags o) with
          | Err err => Err err
          | Ok cfg =>
              match NewForConfig lib cfg with
              | Some err => Err err
              | None => Ok (set_calculated o m ns cfg)
              end
          end
      end
  end.

(** [newRestClient]; the client it returns is identified with the
    configuration it was built from. *)
Definition newRestClient (config : Config) (gv : GroupVersion)
    : result Config :=
  let config1 :=
    {| cfgBase := cfgBase config;
       cfgGroupVersion := Some gv;
       APIPath := if gvGroup gv =? "" then "/api" else "/apis";
       AcceptContentTypes :=
         "application/json;as=Table;v=v1;g=meta.k8s.io,application/json" |} in
  match RESTClientFor lib config1 with
  | Some err => Err err
  | None => Ok config1
  end.

(** The body of the [for] loop of [Run]; [r] is what the list request of
    this pass returns. *)
Definition body (o : PeekOptions) (ns : string) (gvr : GroupVersionResource)
    (st : SessionState) (r : result Table) : M Table Outcome :=
  let listOptions :=
    {| Limit := limit o;
       Continue := st_continueToken st;
       LabelSelector := selector o |} in
  emit (EvList gvr ns listOptions r) ;;
  match r with
  | Err err => ret (Return (Some err))
  | Ok table =>
      if isFirstRequest st && (List.length (Rows table) =? 0)%nat then
        Fprintln "No resources found." ;;
        ret (Return None)
      else
        emit (EvPrintObj table) ;;
        match TablePrinter lib table with
        | Some err => ret (Return (Some err))
        | None =>
            let continueToken := tableContinue table in
            if continueToken =? "" then
              (if interactive o
               then Fprintln (nl ++ "--- End of list ---")
               else ret tt) ;;
              ret (Return None)
            else if interactive o then
              Fprintf (nl ++ "--- [n] next page, [q] quit: ") ;;
              rr <- ReadRune ;;
              match rr with
              | Err err => ret (Return (Some err))
              | Ok char =>
                  Println ;;
                  if negb (char =? rune_n)%Z then ret (Return None)
                  else ret (Next {| st_continueToken := continueToken;
                                    isFirstRequest := false |})
              end
            else
              Fprintf (nl ++ "Continue Token: " ++ continueToken ++ nl) ;;
              ret (Return None)
        end
  end.

(** The locals of [Run] when the loop is entered. *)
Definition initial (o : PeekOptions) : SessionState :=
  {| st_continueToken := continueToken o; isFirstRequest := true |}.

Definition scope (o : PeekOptions) : string :=
  if allNamespaces o then "" else namespace o.

Definition Run (o : PeekOptions) (env : Env Table) : Execution Table :=
  match getResourceGVR lib o with
  | Err err => failed err (keys env)
  | Ok gvr =>
      let ns := scope o in
      match newRestClient (restConfig o) (GroupVersion_of gvr) with
      | Err err => failed err (keys env)
      | Ok restClient =>
          forever (body o ns gvr) (responses env) (initial o) (keys env)
      end
  end.

(** The [RunE] closure of the command, on the parsed flags [o]. *)
Definition RunE (o : PeekOptions) (args : list string) (env : Env Table)
    : Execution Table :=
  match args with
  | [] => failed msg_no_args (keys env)
  | [r] =>
      match Complete (set_resource o r) with
      | Err err => failed err (keys env)
      | Ok o1 =>
          match Validate o1 with
          | Some err => failed err (keys env)
          | None => Run o1 env
          end
      end
  | _ :: _ :: _ => failed msg_many_args (keys env)
  end.
End Program.
End RestTable.

(** ** Second version: the dynamic client and the [printFlags] printer *)

Module Dynamic.
Section Program.
Variable lib : Library.
Local Open Scope go_scope.

Definition Complete (o : PeekOptions) : result PeekOptions :=
  match ToRESTMapper (configFlags o) with
  | Err err => Err err
  | Ok m =>
      match ToRawKubeConfigLoader_Namespace (configFlags o) with
      | Err err => Err err
      | Ok ns =>
          match ToRESTConfig (configFlags o) with
          | Err err => Err err
          | Ok config =>
              match NewForConfig lib config with
              | Some err => Err err
              | None => Ok (set_calculated o m ns (restConfig o))
              end
          end
      end
  end.

Definition body (o : PeekOptions) (ns : string) (gvr : GroupVersionResource)
    (st : SessionState) (r : result UnstructuredList)
    : M UnstructuredList Outcome :=
  let listOptions :=
    {| Limit := limit o;
       Continue := st_continueToken st;
       LabelSelector := selector o |} in
  emit (EvList gvr ns listOptions r) ;;
  match r with
  | Err err => ret (Return (Some err))
  | Ok list =>
      if isFirstRequest st && (List.length (Items list) =? 0)%nat then
        Fprintln "No resources found." ;;
        ret (Return None)
      else
        match ToPrinter (printFlags o) with
        | Err err => ret (Return (Some err))
        | Ok printer =>
            emit (EvPrintObj list) ;;
            match printer list with
            | Some err => ret (Return (Some err))
            | None =>
                let continueToken := GetContinue list in
                if continueToken =? "" then
                  (if interactive o
                   then Fprintln (nl ++ "--- End of list ---")
                   else ret tt) ;;
                  ret (Return None)
                else if interactive o then
                  Fprintf (nl ++ "--- [n] next page, [q] quit: ") ;;
                  rr <- ReadRune ;;
                  match rr with
                  | Err err => ret (Return (Some err))
                  | Ok char =>
                      Println ;;
                      if negb (char =? rune_n)%Z then ret (Return None)
                      else ret (Next {| st_continueToken := continueToken;
                                        isFirstRequest := false |})
                  end
                else
                  Fprintf (nl ++ "Continue Token: " ++ continueToken ++ nl) ;;
                  ret (Return None)
            end
        end
  end.

Definition initial (o : PeekOptions) : SessionState :=
  {| st_continueToken := continueToken o; isFirstRequest := true |}.

Definition scope (o : PeekOptions) : string :=
  if allNamespaces o then "" else namespace o.

Definition Run (o : PeekOptions) (env : Env UnstructuredList)
    : Execution UnstructuredList :=
  match getResourceGVR lib o with
  | Err err => failed err (keys env)
  | Ok gvr =>
      let ns := scope o in
      forever (body o ns gvr) (responses env) (initial o) (keys env)
  end.

Definition RunE (o : PeekOptions) (args : list string)
    (env : Env UnstructuredList) : Execution UnstructuredList :=
  match args with
  | [] => failed msg_no_args (keys env)
  | [r] =>
      match Complete (set_resource o r) with
      | Err err => failed err (keys env)
      | Ok o1 =>
          match Validate o1 with
          | Some err => failed err (keys env)
          | None => Run o1 env
          end
      end
  | _ :: _ :: _ => failed msg_many_args (keys env)
  end.
End Program.
End Dynamic.

(** ** Sample collaborators, options and pages

    Used to run the definitions on concrete inputs. *)

(** Collaborators that always succeed; every sample string is ASCII. *)
Definition okLib : Library :=
  {| unicodeToLower := fun s => s;
     escapeNonASCII := fun s => s;
     RESTClientFor := fun _ => None;
     NewForConfig := fun _ => None;
     TablePrinter := fun _ => None |}.

(** A type registry that knows [pods] and [deployments.apps]. *)
Definition sampleMapper : RESTMapper :=
  fun g =>
    if (Resource g =? "pods") && (Group g =? "") then
      Ok {| Group := ""; Version := "v1"; Resource := "pods" |}
    else if (Resource g =? "deployments") && (Group g =? "apps") then
      Ok {| Group := "apps"; Version := "v1"; Resource := "deployments" |}
    else Err "no matches for resource".

Definition sampleConfig : Config :=
  {| cfgBase := "https://cluster.example"; cfgGroupVersion := None;
     APIPath := ""; AcceptContentTypes := "" |}.

Definition sampleConfigFlags : ConfigFlags :=
  {| ToRESTMapper := Ok sampleMapper;
     ToRawKubeConfigLoader_Namespace := Ok "default";
     ToRESTConfig := Ok sampleConfig |}.

(** [-o] left at its default; the printer prints without error. *)
Definition samplePrintFlags : PrintFlags :=
  {| OutputFormat := ""; ToPrinter := Ok (fun _ => None) |}.

(** [-o] set to a format [ToPrinter] has no printer for. *)
Definition badPrintFlags : PrintFlags :=
  {| OutputFormat := "bogus";
     ToPrinter := Err "unable to match a printer suitable for the output format" |}.

(** [kubectl peek <res> --limit <lim> [--continue tok] [-i]], completed. *)
Definition sampleOptions (res : string) (lim : Z) (tok : string) (i : bool)
    : PeekOptions :=
  {| configFlags := sampleConfigFlags; printFlags := samplePrintFlags;
     resource := res; limit := lim; continueToken := tok; interactive := i;
     selector := ""; allNamespaces := false; namespace := "default";
     mapper := sampleMapper; restConfig := sampleConfig |}.

Definition withPrintFlags (o : PeekOptions) (pf : PrintFlags) : PeekOptions :=
  {| configFlags := configFlags o; printFlags := pf;
     resource := resource o; limit := limit o;
     continueToken := continueToken o; interactive := interactive o;
     selector := selector o; allNamespaces := allNamespaces o;
     namespace := namespace o; mapper := mapper o;
     restConfig := restConfig o |}.

Definition podsGVR : GroupVersionResource :=
  {| Group := ""; Version := "v1"; Resource := "pods" |}.

(** A table of [n] one-cell rows. *)
Definition rowsOf (n : nat) : list TableRow := repeat ["pod"] n.

Definition page (n : nat) (tok : string) : Table :=
  {| Rows := rowsOf n; tableContinue := tok |}.

Definition upage (n : nat) (tok : string) : UnstructuredList :=
  {| Items := repeat "pod" n; GetContinue := tok |}.

(** ** Notions used to state the properties *)

(** A token is present when it is not the empty string, the only test the
    loop makes on it. *)
Definition present (tok : string) : bool := negb (tok =? "").

(** The options with another [--continue] value. *)
Definition with_token (o : PeekOptions) (tok : string) : PeekOptions :=
  {| configFlags := configFlags o; printFlags := printFlags o;
     resource := resource o; limit := limit o; continueToken := tok;
     interactive := interactive o; selector := selector o;
     allNamespaces := allNamespaces o; namespace := namespace o;
     mapper := mapper o; restConfig := restConfig o |}.

Section Chain.
Variable Page : Type.
Variable tokenOf : Page -> string.

(** The requests [fs] carry [tok] first and then, each, the token of the
    answer before; nothing is requested after a failed request. *)
Fixpoint token_chain (tok : string) (fs : list (ListOptions * result Page))
    : Prop :=
  match fs with
  | [] => True
  | (opts, r) :: rest =>
      Continue opts = tok /\
      match r with
      | Ok p => token_chain (tokenOf p) rest
      | Err _ => rest = []
      end
  end.
End Chain.
Arguments token_chain {Page}.

(** A collection served in pages, the last of which carries no token. *)
Definition finite_collection (pages : list Table) : Prop :=
  exists init final, pages = (init ++ [final])%list /\ tableContinue final = "".

(** Two pages that differ in the value of their token at most, and that the
    printer treats alike. *)
Definition alike_page (lib : Library) (p q : Table) : Prop :=
  Rows p = Rows q /\
  present (tableContinue p) = present (tableContinue q) /\
  TablePrinter lib p = TablePrinter lib q.

Inductive alike_result (lib : Library) : result Table -> result Table -> Prop :=
| alike_ok p q : alike_page lib p q -> alike_result lib (Ok p) (Ok q)
| alike_err e : alike_result lib (Err e) (Err e).

(** Two events that differ in the value of tokens at most. *)
Inductive alike_event (lib : Library) : Event Table -> Event Table -> Prop :=
| alike_list gvr ns o1 o2 r1 r2 :
    Limit o1 = Limit o2 ->
    LabelSelector o1 = LabelSelector o2 ->
    present (Continue o1) = present (Continue o2) ->
    alike_result lib r1 r2 ->
    alike_event lib (EvList gvr ns o1 r1) (EvList gvr ns o2 r2)
| alike_print p q :
    alike_page lib p q -> alike_event lib (EvPrintObj p) (EvPrintObj q)
| alike_out s : alike_event lib (EvOut s) (EvOut s)
| alike_out_token t1 t2 :
    present t1 = true -> present t2 = true ->
    alike_event lib (EvOut (txt_token t1)) (EvOut (txt_token t2))
| alike_stdout s : alike_event lib (EvStdout s) (EvStdout s)
| alike_read r : alike_event lib (EvReadRune r) (EvReadRune r).

Inductive alike_status : Status -> Status -> Prop :=
| alike_terminated err : alike_status (Terminated err) (Terminated err)
| alike_pending s t :
    isFirstRequest s = isFirstRequest t ->
    present (st_continueToken s) = present (st_continueToken t) ->
    alike_status (Pending s) (Pending t).

(** What the controller sees of a page: how many items, which token. *)
Definition summary : Type := nat * string.
Definition table_summary (t : Table) : summary :=
  (List.length (Rows t), tableContinue t).
Definition list_summary (l : UnstructuredList) : summary :=
  (List.length (Items l), GetContinue l).

(** A trace without its printer calls, pages reduced to their summary. *)
Definition view_event {Page} (sum : Page -> summary) (e : Event Page)
    : list (Event summary) :=
  match e with
  | EvList gvr ns opts (Ok p) => [EvList gvr ns opts (Ok (sum p))]
  | EvList gvr ns opts (Err err) => [EvList gvr ns opts (Err err)]
  | EvPrintObj _ => []
  | EvOut s => [EvOut s]
  | EvStdout s => [EvStdout s]
  | EvReadRune r => [EvReadRune r]
  end.

Definition controller_view {Page} (sum : Page -> summary)
    (tr : list (Event Page)) : list (Event summary) :=
  flat_map (view_event sum) tr.

(** The error of the render step of the second version: [ToPrinter], then
    [PrintObj]. *)
Definition render_error (o : PeekOptions) (l : UnstructuredList)
    : option error :=
  match ToPrinter (printFlags o) with
  | Err err => Some err
  | Ok printer => printer l
  end.

(** The same answer given to both versions: the same error, or pages with
    the same item count and token on which the render steps end alike. *)
Inductive same_response (lib : Library) (o : PeekOptions)
    : result Table -> result UnstructuredList -> Prop :=
| same_page t l :
    table_summary t = list_summary l ->
    TablePrinter lib t = render_error o l ->
    same_response lib o (Ok t) (Ok l)
| same_err e : same_response lib o (Err e) (Err e).

(** What an invocation that never reaches [Run] looks like. *)
Definition rejected {Page} (x : Execution Page) (stdin : list (result rune))
    : Prop :=
  (exists err, status x = Terminated (Some err) /\ exitCode (Some err) = 1%Z) /\
  trace x = [] /\ unread x = stdin.

(** The request a pass of the loop sends. *)
Definition listOptions_of (o : PeekOptions) (st : SessionState) : ListOptions :=
  {| Limit := limit o;
     Continue := st_continueToken st;
     LabelSelector := selector o |}.

(** What the keystroke read returns on [stdin], and what it leaves. *)
Definition keystroke (stdin : list (result rune)) : result rune :=
  hd (Err io_EOF) stdin.

(** The locals after a pass that ends with the [n] keystroke. *)
Definition continued (tok : string) : SessionState :=
  {| st_continueToken := tok; isFirstRequest := false |}.

(** ** Measures of a trace *)

(** The list requests of a trace: resource, namespace and options. *)
Fixpoint requests {Page} (tr : list (Event Page))
    : list (GroupVersionResource * string * ListOptions) :=
  match tr with
  | [] => []
  | EvList gvr ns opts _ :: rest => (gvr, ns, opts) :: requests rest
  | _ :: rest => requests rest
  end.

(** The pages among the answers to the requests. *)
Fixpoint pages_of {Page} (fs : list (ListOptions * result Page)) : list Page :=
  match fs with
  | [] => []
  | (_, Ok p) :: rest => p :: pages_of rest
  | (_, Err _) :: rest => pages_of rest
  end.




(** A write that starts like the token line. *)
Definition is_token_line (s : string) : bool :=
  HasPrefix s (nl ++ "Continue Token: ").

(** * Properties *)

(** ** Strings *)

Lemma Split_length s sep : List.length (Split s sep) = S (Count s sep).
Proof.
  induction s as [|c s IH]; simpl; [reflexivity|].
  destruct (Ascii.eqb c sep); simpl.
  - now rewrite IH.
  - destruct (Split s sep); simpl in *; congruence.
Qed.

Lemma Split_no_sep s sep : Count s sep = 0 -> Split s sep = [s].
Proof.
  induction s as [|c s IH]; simpl; [reflexivity|].
  destruct (Ascii.eqb c sep); simpl; [discriminate|].
  intros H. now rewrite (IH H).
Qed.

Lemma Split_one_sep s sep :
  Count s sep = 1 ->
  exists l r, s = l ++ String sep r /\ Count l sep = 0 /\ Count r sep = 0 /\
              Split s sep = [l; r].
Proof.
  induction s as [|c s IH]; simpl; [discriminate|].
  destruct (Ascii.eqb_spec c sep) as [->|Hne]; simpl.
  - intros H. injection H as H. exists "", s. simpl.
    repeat split; trivial. now rewrite (Split_no_sep _ _ H).
  - intros H. destruct (IH H) as (l & r & -> & Hl & Hr & Hs).
    exists (String c l), r. simpl. rewrite Hs.
    destruct (Ascii.eqb_spec c sep); [contradiction|].
    repeat split; trivial.
Qed.

Lemma append_assoc3 (a b c : string) : (a ++ b) ++ c = a ++ b ++ c.
Proof. induction a as [|x a IH]; simpl; [reflexivity|now rewrite IH]. Qed.

Lemma HasPrefix_app p s : HasPrefix (p ++ s) p = true.
Proof.
  induction p as [|a p IH]; simpl; [reflexivity|].
  now rewrite Ascii.eqb_refl, IH.
Qed.

Lemma Contains_prefix s sub : HasPrefix s sub = true -> Contains s sub = true.
Proof. intros H. destruct s; simpl; rewrite H; reflexivity. Qed.

Lemma Contains_app pre sub post : Contains (pre ++ sub ++ post) sub = true.
Proof.
  induction pre as [|a pre IH]; simpl.
  - apply Contains_prefix, HasPrefix_app.
  - rewrite IH. apply orb_true_r.
Qed.

Lemma HasPrefix_inv s p : HasPrefix s p = true -> exists post, s = p ++ post.
Proof.
  revert s; induction p as [|a p IH]; intros s; simpl.
  - exists s; reflexivity.
  - destruct s as [|b s]; [discriminate|].
    intros H. apply andb_true_iff in H as [Hab Hp].
    apply Ascii.eqb_eq in Hab as ->.
    destruct (IH _ Hp) as [post ->]. exists post; reflexivity.
Qed.

Lemma Contains_inv s sub :
  Contains s sub = true -> exists pre post, s = pre ++ sub ++ post.
Proof.
  induction s as [|a s IH]; simpl; intros H.
  - rewrite orb_false_r in H. destruct (HasPrefix_inv _ _ H) as [post E].
    exists "", post. exact E.
  - apply orb_true_iff in H as [H|H].
    + destruct (HasPrefix_inv _ _ H) as [post E]. exists "", post. exact E.
    + destruct (IH H) as (pre & post & ->).
      exists (String a pre), post. reflexivity.
Qed.

Lemma plainByte_escape c :
  plainByte c = true -> isASCII c = true /\ escapeByte c = String c "".
Proof.
  unfold plainByte, isASCII, escapeByte. intros H.
  repeat (apply andb_true_iff in H; destruct H as [H ?]).
  apply negb_true_iff in H0, H1.
  rewrite H0, H1. simpl. rewrite H, H2. simpl.
  split; [|reflexivity].
  apply N.ltb_lt. apply N.ltb_lt in H2. lia.
Qed.

Lemma escape_plain lib s : allBytes plainByte s = true -> escape lib s = s.
Proof.
  induction s as [|c s IH]; simpl; [reflexivity|].
  intros H. apply andb_true_iff in H as [Hc Hs].
  destruct (plainByte_escape c Hc) as [-> ->]. simpl. now rewrite IH.
Qed.

(** ** Resource resolution *)

Lemma gvrToFind_one_dot arg :
  Count arg "." = 1 ->
  exists name group,
    arg = name ++ String "." group /\
    Count name "." = 0 /\ Count group "." = 0 /\
    gvrToFind arg = {| Group := group; Version := ""; Resource := name |}.
Proof.
  intros H. destruct (Split_one_sep _ _ H) as (l & r & E & Hl & Hr & Hs).
  exists l, r. repeat split; trivial.
  unfold gvrToFind. rewrite Hs. reflexivity.
Qed.

Lemma gvrToFind_other arg :
  Count arg "." <> 1 ->
  gvrToFind arg = {| Group := ""; Version := ""; Resource := arg |}.
Proof.
  intros H. unfold gvrToFind. rewrite Split_length.
  destruct (Nat.eqb_spec (S (Count arg ".")) 2) as [E|E]; [lia|reflexivity].
Qed.

(** C8, as amended.  [getResourceGVR] asks the mapper for the partial GVR of
    the lower-cased argument: with exactly one dot the part before it is the
    resource and the part after it the group, with no dot the whole string
    is the resource and the group is empty.  When the mapper reports an
    error the result is the fixed message followed by the [%q] form of the
    argument as typed; that form is the argument itself between double
    quotes when every byte of it is printable ASCII other than the double
    quote and the backslash, and the message then contains the argument
    verbatim. *)
Theorem getResourceGVR_resolution (lib : Library) (o : PeekOptions) :
  (allBytes isASCII (resource o) = true ->
   ToLower lib (resource o) = mapBytes lowerByte (resource o)) /\
  (Count (ToLower lib (resource o)) "." = 1 ->
   exists name group,
     ToLower lib (resource o) = name ++ String "." group /\
     Count name "." = 0 /\ Count group "." = 0 /\
     gvrToFind (ToLower lib (resource o)) =
       {| Group := group; Version := ""; Resource := name |}) /\
  (Count (ToLower lib (resource o)) "." = 0 ->
   gvrToFind (ToLower lib (resource o)) =
     {| Group := ""; Version := ""; Resource := ToLower lib (resource o) |}) /\
  (forall gvr,
     mapper o (gvrToFind (ToLower lib (resource o))) = Ok gvr ->
     getResourceGVR lib o = Ok gvr) /\
  (forall e,
     mapper o (gvrToFind (ToLower lib (resource o))) = Err e ->
     getResourceGVR lib o = Err (msg_unknown ++ Quote lib (resource o)) /\
     (allBytes plainByte (resource o) = true ->
      getResourceGVR lib o =
        Err (msg_unknown ++ String dquote (resource o ++ String dquote "")) /\
      Contains (msg_unknown ++ Quote lib (resource o)) (resource o) = true)).
Proof.
  repeat split.
  - intros H. unfold ToLower. now rewrite H.
  - apply gvrToFind_one_dot.
  - intros H. apply gvrToFind_other. lia.
  - intros gvr H. unfold getResourceGVR. now rewrite H.
  - unfold getResourceGVR, Errorf_q. now rewrite H.
  - unfold getResourceGVR, Errorf_q, Quote. rewrite H.
    now rewrite (escape_plain lib _ H0).
  - unfold Quote. rewrite (escape_plain lib _ H0).
    change (String dquote (resource o ++ String dquote ""))
      with (String dquote "" ++ resource o ++ String dquote "").
    rewrite <- (append_assoc3 msg_unknown).
    apply Contains_app.
Qed.

(** The theorem at [Widgets.Example], a name the sample registry does not
    know. *)
Lemma getResourceGVR_resolution_witness :
  getResourceGVR okLib (sampleOptions "Widgets.Example" 10 "" false) =
    Err (msg_unknown ++ String dquote ("Widgets.Example" ++ String dquote ""))
  /\ Contains (msg_unknown ++
               Quote okLib (resource (sampleOptions "Widgets.Example" 10 "" false)))
       "Widgets.Example" = true.
Proof.
  destruct (getResourceGVR_resolution okLib
              (sampleOptions "Widgets.Example" 10 "" false))
    as (_ & _ & _ & _ & H).
  destruct (H "no matches for resource" eq_refl) as [_ H2].
  exact (H2 eq_refl).
Defined.

(** C8 as stated fails: for the argument [po\ds] the mapper reports no match
    and the message holds the argument with its backslash doubled, so the
    argument as typed does not occur in it. *)
Lemma unknown_resource_message_not_verbatim :
  exists msg,
    getResourceGVR okLib (sampleOptions "po\ds" 10 "" false) = Err msg /\
    msg = msg_unknown ++ String dquote ("po\\ds" ++ String dquote "") /\
    Contains msg "po\ds" = false.
Proof. eexists. repeat split. Qed.

(** ** Validation *)

Lemma Validate_flags o r m ns cfg :
  Validate (set_calculated (set_resource o r) m ns cfg) = Validate o.
Proof. reflexivity. Qed.

Lemma Validate_rejects_flags o :
  (limit o <= 0)%Z \/
  (interactive o = true /\ continueToken o <> "") \/
  (interactive o = true /\ OutputFormat (printFlags o) <> "" /\
   OutputFormat (printFlags o) <> "wide") ->
  exists err, Validate o = Some err /\
              (err = msg_limit \/ err = msg_together \/ err = msg_format).
Proof.
  unfold Validate. intros H.
  destruct (Z.leb_spec (limit o) 0) as [Hl|Hl];
    [eexists; split; [reflexivity|tauto]|].
  destruct H as [H|[[Hi Ht]|(Hi & Hf & Hw)]]; [lia| |]; rewrite Hi; simpl.
  - apply String.eqb_neq in Ht. rewrite Ht. simpl.
    eexists; split; [reflexivity|tauto].
  - destruct (continueToken o =? ""); simpl;
      [|eexists; split; [reflexivity|tauto]].
    apply String.eqb_neq in Hf, Hw. rewrite Hf, Hw. simpl.
    eexists; split; [reflexivity|tauto].
Qed.

Lemma RestTable_Complete_ok lib o o1 :
  RestTable.Complete lib o = Ok o1 ->
  exists m ns cfg, o1 = set_calculated o m ns cfg.
Proof.
  unfold RestTable.Complete.
  destruct (ToRESTMapper _); [|discriminate].
  destruct (ToRawKubeConfigLoader_Namespace _); [|discriminate].
  destruct (ToRESTConfig _); [|discriminate].
  destruct (NewForConfig _ _); [discriminate|].
  intros [= <-]. eauto.
Qed.

Lemma Dynamic_Complete_ok lib o o1 :
  Dynamic.Complete lib o = Ok o1 ->
  exists m ns cfg, o1 = set_calculated o m ns cfg.
Proof.
  unfold Dynamic.Complete.
  destruct (ToRESTMapper _); [|discriminate].
  destruct (ToRawKubeConfigLoader_Namespace _); [|discriminate].
  destruct (ToRESTConfig _); [|discriminate].
  destruct (NewForConfig _ _); [discriminate|].
  intros [= <-]. eauto.
Qed.

(** C6.  Flags with a non-positive limit, with both [--interactive] and
    [--continue], or with [--interactive] and an output format other than the
    default and [wide], are rejected by [Validate] with one of its three
    messages.  Whatever the arguments and the environment, the invocation
    then returns an error (exit status 1) without having sent a request or
    written anything, in both versions; when the argument check and
    [Complete] pass, the error is the one of [Validate]. *)
Theorem invalid_flags_rejected (lib : Library) (o : PeekOptions) :
  (limit o <= 0)%Z \/
  (interactive o = true /\ continueToken o <> "") \/
  (interactive o = true /\ OutputFormat (printFlags o) <> "" /\
   OutputFormat (printFlags o) <> "wide") ->
  exists err,
    Validate o = Some err /\
    (err = msg_limit \/ err = msg_together \/ err = msg_format) /\
    (forall args env, rejected (RestTable.RunE lib o args env) (keys env)) /\
    (forall args env, rejected (Dynamic.RunE lib o args env) (keys env)) /\
    (forall r o1 env,
       RestTable.Complete lib (set_resource o r) = Ok o1 ->
       status (RestTable.RunE lib o [r] env) = Terminated (Some err)) /\
    (forall r o1 env,
       Dynamic.Complete lib (set_resource o r) = Ok o1 ->
       status (Dynamic.RunE lib o [r] env) = Terminated (Some err)).
Proof.
  intros H. destruct (Validate_rejects_flags o H) as (err & Hv & Herr).
  exists err. split; [exact Hv|]. split; [exact Herr|].
  assert (R : forall Page (e : error) stdin,
             rejected (@failed Page e stdin) stdin).
  { intros Page e stdin. split; [exists e; split; reflexivity|split; reflexivity]. }
  split; [|split; [|split]].
  - intros [|r [|r' args]] env; unfold RestTable.RunE; try apply R.
    destruct (RestTable.Complete lib (set_resource o r)) as [o1|e] eqn:E;
      [|apply R].
    destruct (RestTable_Complete_ok _ _ _ E) as (m & ns & cfg & ->).
    rewrite Validate_flags, Hv. apply R.
  - intros [|r [|r' args]] env; unfold Dynamic.RunE; try apply R.
    destruct (Dynamic.Complete lib (set_resource o r)) as [o1|e] eqn:E;
      [|apply R].
    destruct (Dynamic_Complete_ok _ _ _ E) as (m & ns & cfg & ->).
    rewrite Validate_flags, Hv. apply R.
  - intros r o1 env E. unfold RestTable.RunE. rewrite E.
    destruct (RestTable_Complete_ok _ _ _ E) as (m & ns & cfg & ->).
    rewrite Validate_flags, Hv. reflexivity.
  - intros r o1 env E. unfold Dynamic.RunE. rewrite E.
    destruct (Dynamic_Complete_ok _ _ _ E) as (m & ns & cfg & ->).
    rewrite Validate_flags, Hv. reflexivity.
Qed.

(** The theorem at [kubectl peek pods --limit 0]. *)
Lemma invalid_flags_rejected_witness :
  (limit (sampleOptions "" 0 "" false) <= 0)%Z /\
  status (RestTable.RunE okLib (sampleOptions "" 0 "" false) ["pods"]
            {| responses := [Ok (page 3 "")]; keys := [] |})
    = Terminated (Some msg_limit) /\
  trace (RestTable.RunE okLib (sampleOptions "" 0 "" false) ["pods"]
           {| responses := [Ok (page 3 "")]; keys := [] |}) = [].
Proof.
  assert (L : (limit (sampleOptions "" 0 "" false) <= 0)%Z) by (simpl; lia).
  split; [exact L|].
  destruct (invalid_flags_rejected okLib (sampleOptions "" 0 "" false)
              (or_introl L)) as (err & Hv & _ & Hr & _ & Hc & _).
  injection Hv as <-.
  split.
  - exact (Hc "pods" _ {| responses := [Ok (page 3 "")]; keys := [] |} eq_refl).
  - exact (proj1 (proj2 (Hr ["pods"] {| responses := [Ok (page 3 "")]; keys := [] |}))).
Defined.

(** ** One pass of the loop, first version *)

Ltac unfold_body :=
  unfold RestTable.body, Dynamic.body, bind, emit, ret, Fprintln, Fprintf,
    Println, ReadRune, listOptions_of, keystroke, continued.

Lemma rendered_page (st : SessionState) (n : nat) :
  isFirstRequest st = false \/ n <> 0 ->
  isFirstRequest st && (n =? 0)%nat = false.
Proof.
  intros [->|H]; [reflexivity|].
  destruct (Nat.eqb_spec n 0); [contradiction|apply andb_false_r].
Qed.

Lemma rows_length (A : Type) (l : list A) : l <> [] -> List.length l <> 0.
Proof. destruct l; simpl; congruence. Qed.

Lemma body_fetch_error lib o ns gvr st e stdin :
  RestTable.body lib o ns gvr st (Err e) stdin =
    (Return (Some e), stdin, [EvList gvr ns (listOptions_of o st) (Err e)]).
Proof. reflexivity. Qed.

Lemma body_empty_first lib o ns gvr st table stdin :
  isFirstRequest st = true -> Rows table = [] ->
  RestTable.body lib o ns gvr st (Ok table) stdin =
    (Return None, stdin,
     [EvList gvr ns (listOptions_of o st) (Ok table); EvOut txt_no_resources]).
Proof. intros H1 H2. unfold_body. rewrite H1, H2. reflexivity. Qed.

Lemma body_print_error lib o ns gvr st table stdin e :
  isFirstRequest st = false \/ Rows table <> [] ->
  TablePrinter lib table = Some e ->
  RestTable.body lib o ns gvr st (Ok table) stdin =
    (Return (Some e), stdin,
     [EvList gvr ns (listOptions_of o st) (Ok table); EvPrintObj table]).
Proof.
  intros H1 H2. unfold_body.
  rewrite rendered_page, H2 by (destruct H1; auto using rows_length).
  reflexivity.
Qed.

Lemma body_no_token lib o ns gvr st table stdin :
  isFirstRequest st = false \/ Rows table <> [] ->
  TablePrinter lib table = None ->
  tableContinue table = "" ->
  RestTable.body lib o ns gvr st (Ok table) stdin =
    (Return None, stdin,
     EvList gvr ns (listOptions_of o st) (Ok table) :: EvPrintObj table ::
     (if interactive o then [EvOut txt_end_of_list] else [])).
Proof.
  intros H1 H2 H3. unfold_body.
  rewrite rendered_page, H2, H3 by (destruct H1; auto using rows_length).
  destruct (interactive o); reflexivity.
Qed.

Lemma body_token_single_pass lib o ns gvr st table stdin :
  isFirstRequest st = false \/ Rows table <> [] ->
  TablePrinter lib table = None ->
  tableContinue table <> "" ->
  interactive o = false ->
  RestTable.body lib o ns gvr st (Ok table) stdin =
    (Return None, stdin,
     [EvList gvr ns (listOptions_of o st) (Ok table); EvPrintObj table;
      EvOut (nl ++ "Continue Token: " ++ tableContinue table ++ nl)]).
Proof.
  intros H1 H2 H3 H4. unfold_body. apply String.eqb_neq in H3.
  rewrite rendered_page, H2, H3, H4 by (destruct H1; auto using rows_length).
  reflexivity.
Qed.

Lemma body_token_interactive lib o ns gvr st table stdin :
  isFirstRequest st = false \/ Rows table <> [] ->
  TablePrinter lib table = None ->
  tableContinue table <> "" ->
  interactive o = true ->
  RestTable.body lib o ns gvr st (Ok table) stdin =
    (match keystroke stdin with
     | Err e => Return (Some e)
     | Ok char => if (char =? rune_n)%Z
                  then Next (continued (tableContinue table))
                  else Return None
     end,
     tl stdin,
     [EvList gvr ns (listOptions_of o st) (Ok table); EvPrintObj table;
      EvOut txt_prompt; EvReadRune (keystroke stdin)] ++
     match keystroke stdin with
     | Err _ => []
     | Ok _ => [EvStdout nl]
     end)%list.
Proof.
  intros H1 H2 H3 H4. unfold_body. apply String.eqb_neq in H3.
  rewrite rendered_page, H2, H3, H4 by (destruct H1; auto using rows_length).
  destruct stdin as [|[c|e] more]; simpl; try reflexivity.
  destruct (c =? rune_n)%Z; reflexivity.
Qed.

Lemma fetches_app (Page : Type) (a b : list (Event Page)) :
  fetches (a ++ b) = (fetches a ++ fetches b)%list.
Proof.
  induction a as [|e a IH]; simpl; [reflexivity|].
  destruct e; simpl; now rewrite ?IH.
Qed.

(** Every pass sends one request, the first thing it does, and reaches the
    end of the loop body on one path only: interactive mode, a token in the
    answer, the keystroke [n]. *)
Lemma body_shape lib o ns gvr st r stdin :
  exists out stdin1 w,
    RestTable.body lib o ns gvr st r stdin =
      (out, stdin1, EvList gvr ns (listOptions_of o st) r :: w) /\
    fetches w = [] /\
    forall st1, out = Next st1 ->
      exists table,
        r = Ok table /\ interactive o = true /\ tableContinue table <> "" /\
        keystroke stdin = Ok rune_n /\ st1 = continued (tableContinue table) /\
        stdin1 = tl stdin.
Proof.
  unfold_body. destruct r as [table|e]; simpl.
  2:{ do 3 eexists. split; [reflexivity|]. split; [reflexivity|discriminate]. }
  destruct (isFirstRequest st && (List.length (Rows table) =? 0)%nat); simpl.
  { do 3 eexists. split; [reflexivity|]. split; [reflexivity|discriminate]. }
  destruct (TablePrinter lib table); simpl.
  { do 3 eexists. split; [reflexivity|]. split; [reflexivity|discriminate]. }
  destruct (String.eqb_spec (tableContinue table) "") as [E|E]; simpl.
  { destruct (interactive o); simpl;
      do 3 eexists; (split; [reflexivity|]); (split; [reflexivity|discriminate]). }
  destruct (interactive o) eqn:Hi; simpl.
  2:{ do 3 eexists. split; [reflexivity|]. split; [reflexivity|discriminate]. }
  destruct stdin as [|[c|e] more]; simpl.
  - do 3 eexists. split; [reflexivity|]. split; [reflexivity|discriminate].
  - destruct (Z.eqb_spec c rune_n) as [->|Hc]; simpl;
      do 3 eexists; (split; [reflexivity|]); (split; [reflexivity|]).
    + intros st1 [= <-]. exists table. repeat split; trivial.
    + discriminate.
  - do 3 eexists. split; [reflexivity|]. split; [reflexivity|discriminate].
Qed.

(** ** The loop *)

Lemma forever_return (Page : Type) body (r : result Page) rest st stdin
    err stdin1 w :
  body st r stdin = (Return err, stdin1, w) ->
  forever body (r :: rest) st stdin =
    {| status := Terminated err; unread := stdin1; trace := w |}.
Proof. intros E. simpl. rewrite E. reflexivity. Qed.

Lemma forever_next (Page : Type) body (r : result Page) rest st stdin
    st1 stdin1 w :
  body st r stdin = (Next st1, stdin1, w) ->
  forever body (r :: rest) st stdin = after w (forever body rest st1 stdin1).
Proof. intros E. simpl. rewrite E. reflexivity. Qed.

(** The first request of a run that sends one is the first event of its
    trace, and carries the caller's token. *)
Lemma Run_first_fetch lib o env opts r more :
  fetches (trace (RestTable.Run lib o env)) = (opts, r) :: more ->
  exists gvr client rest,
    getResourceGVR lib o = Ok gvr /\
    RestTable.newRestClient lib (restConfig o) (GroupVersion_of gvr) = Ok client /\
    responses env = r :: rest /\
    opts = listOptions_of o (RestTable.initial o) /\
    RestTable.Run lib o env =
      forever (RestTable.body lib o (RestTable.scope o) gvr) (r :: rest)
        (RestTable.initial o) (keys env).
Proof.
  unfold RestTable.Run.
  destruct (getResourceGVR lib o) as [gvr|e]; [|discriminate].
  destruct (RestTable.newRestClient _ _ _) as [client|e] eqn:C; [|discriminate].
  destruct (responses env) as [|r0 rest]; [discriminate|].
  destruct (body_shape lib o (RestTable.scope o) gvr (RestTable.initial o) r0
              (keys env)) as (out & s1 & w & E & Hw & _).
  intros H. exists gvr, client, rest.
  assert (H0 : (opts, r) = (listOptions_of o (RestTable.initial o), r0)).
  { destruct out as [err|st1].
    - rewrite (forever_return _ _ _ _ _ _ _ _ _ E) in H. simpl in H. congruence.
    - rewrite (forever_next _ _ _ _ _ _ _ _ _ E) in H. simpl in H. congruence. }
  injection H0 as -> ->. repeat split; trivial.
Qed.

Lemma RunE_runs lib o args env :
  trace (RestTable.RunE lib o args env) <> [] ->
  exists r o1,
    args = [r] /\ RestTable.Complete lib (set_resource o r) = Ok o1 /\
    Validate o1 = None /\
    RestTable.RunE lib o args env = RestTable.Run lib o1 env.
Proof.
  unfold RestTable.RunE. destruct args as [|r [|r' args]];
    try (intros H; exfalso; apply H; reflexivity).
  destruct (RestTable.Complete lib (set_resource o r)) as [o1|e] eqn:C;
    try (intros H; exfalso; apply H; reflexivity).
  destruct (Validate o1) eqn:V;
    try (intros H; exfalso; apply H; reflexivity).
  intros _. exists r, o1. repeat split; trivial.
Qed.

(** C5.  When the first page an invocation fetches has no rows, the
    invocation returns [nil] (exit status 0) after one request; all it
    writes is the line [No resources found.]; the printer is not called, no
    token or prompt is written and no keystroke is read. *)
Theorem empty_first_page (lib : Library) (o : PeekOptions)
    (args : list string) (env : Env Table) (opts : ListOptions)
    (table : Table) (more : list (ListOptions * result Table)) :
  fetches (trace (RestTable.RunE lib o args env)) = (opts, Ok table) :: more ->
  Rows table = [] ->
  status (RestTable.RunE lib o args env) = Terminated None /\
  exitCode None = 0%Z /\
  written (trace (RestTable.RunE lib o args env)) = ["No resources found." ++ nl] /\
  printed (trace (RestTable.RunE lib o args env)) = [] /\
  reads (trace (RestTable.RunE lib o args env)) = [] /\
  unread (RestTable.RunE lib o args env) = keys env /\
  more = [].
Proof.
  intros Hf Hrows.
  destruct (RunE_runs lib o args env) as (r & o1 & _ & _ & _ & E).
  { intros T. rewrite T in Hf. discriminate. }
  rewrite E in *. clear E.
  destruct (Run_first_fetch _ _ _ _ _ _ Hf) as (gvr & c & rest & _ & _ & _ & _ & R).
  rewrite R in *. clear R.
  rewrite (forever_return _ _ _ _ _ _ _ _ _
             (body_empty_first lib o1 _ gvr (RestTable.initial o1) table
                (keys env) eq_refl Hrows)) in *.
  simpl in *. injection Hf as _ <-. repeat split.
Qed.

(** The theorem at [kubectl peek pods -i] on an empty namespace. *)
Lemma empty_first_page_witness :
  status (RestTable.RunE okLib (sampleOptions "" 10 "" true) ["pods"]
            {| responses := [Ok (page 0 "")]; keys := [Ok rune_n] |})
    = Terminated None /\
  written (trace (RestTable.RunE okLib (sampleOptions "" 10 "" true) ["pods"]
            {| responses := [Ok (page 0 "")]; keys := [Ok rune_n] |}))
    = ["No resources found." ++ nl].
Proof.
  destruct (empty_first_page okLib (sampleOptions "" 10 "" true) ["pods"]
              {| responses := [Ok (page 0 "")]; keys := [Ok rune_n] |}
              _ (page 0 "") [] eq_refl eq_refl) as (H1 & _ & H2 & _).
  split; [exact H1|exact H2].
Defined.

(** ** The deciding step

    In the statements below [forever (RestTable.body lib o ns gvr)
    (r :: rest) st stdin] is the loop of [Run] at any of its passes: [st]
    holds the locals, [r] is the answer to the request of this pass, [rest]
    the answers that later requests would get and [stdin] what is left of
    the input. *)

(** C4, as amended.  A page without a token that reaches the printer (it is
    not an empty first page) and is printed ends the run with [nil]: in
    interactive mode the end-of-list marker is written after it, otherwise
    nothing is; no keystroke is read and no further request is sent. *)
Theorem exhausted_page_terminates (lib : Library) (o : PeekOptions)
    (ns : string) (gvr : GroupVersionResource) (st : SessionState)
    (table : Table) (rest : list (result Table)) (stdin : list (result rune)) :
  tableContinue table = "" ->
  isFirstRequest st = false \/ Rows table <> [] ->
  TablePrinter lib table = None ->
  forever (RestTable.body lib o ns gvr) (Ok table :: rest) st stdin =
    {| status := Terminated None;
       unread := stdin;
       trace := EvList gvr ns (listOptions_of o st) (Ok table) ::
                EvPrintObj table ::
                (if interactive o
                 then [EvOut (nl ++ "--- End of list ---" ++ nl)]
                 else []) |}.
Proof.
  intros Ht Hp Hr. apply forever_return. now apply body_no_token.
Qed.

(** The theorem at the last page of an interactive session. *)
Lemma exhausted_page_terminates_witness :
  forever (RestTable.body okLib (sampleOptions "pods" 5 "" true) "default" podsGVR)
    [Ok (page 2 "")] (continued "t1") [Ok 113%Z] =
  {| status := Terminated None;
     unread := [Ok 113%Z];
     trace := [EvList podsGVR "default"
                 {| Limit := 5; Continue := "t1"; LabelSelector := "" |}
                 (Ok (page 2 ""));
               EvPrintObj (page 2 "");
               EvOut (nl ++ "--- End of list ---" ++ nl)] |}.
Proof.
  apply (exhausted_page_terminates okLib (sampleOptions "pods" 5 "" true)
           "default" podsGVR (continued "t1") (page 2 "") [] [Ok 113%Z]).
  - reflexivity.
  - left; reflexivity.
  - reflexivity.
Defined.

(** C4 as stated fails: in interactive mode, on an empty collection, the
    only answer carries no token and the run ends with [nil], but what it
    writes is [No resources found.] and not the end-of-list marker. *)
Lemma empty_collection_no_end_marker :
  fetches (trace (RestTable.RunE okLib (sampleOptions "" 5 "" true) ["pods"]
                    {| responses := [Ok (page 0 "")]; keys := [] |}))
    = [({| Limit := 5; Continue := ""; LabelSelector := "" |}, Ok (page 0 ""))] /\
  status (RestTable.RunE okLib (sampleOptions "" 5 "" true) ["pods"]
            {| responses := [Ok (page 0 "")]; keys := [] |}) = Terminated None /\
  written (trace (RestTable.RunE okLib (sampleOptions "" 5 "" true) ["pods"]
                    {| responses := [Ok (page 0 "")]; keys := [] |}))
    = ["No resources found." ++ nl] /\
  ~ In txt_end_of_list
      (written (trace (RestTable.RunE okLib (sampleOptions "" 5 "" true) ["pods"]
                         {| responses := [Ok (page 0 "")]; keys := [] |}))).
Proof.
  repeat split. intros [H|[]]. discriminate H.
Qed.

Lemma txt_token_not_prompt tok : txt_token tok <> txt_prompt.
Proof. unfold txt_token, txt_prompt. simpl. intros H. discriminate H. Qed.

(** Without [--interactive] a pass never reaches the end of the loop body,
    reads nothing and writes no prompt. *)
Lemma body_single_pass lib o ns gvr st r stdin :
  interactive o = false ->
  exists err w,
    RestTable.body lib o ns gvr st r stdin = (Return err, stdin, w) /\
    List.length (fetches w) = 1 /\ reads w = [] /\ ~ In txt_prompt (written w).
Proof.
  intros Hi. unfold_body. rewrite Hi. destruct r as [table|e]; simpl.
  2:{ do 2 eexists. split; [reflexivity|]. simpl. tauto. }
  destruct (isFirstRequest st && (List.length (Rows table) =? 0)%nat); simpl.
  { do 2 eexists. split; [reflexivity|]. simpl. repeat split.
    intros [H|[]]. discriminate H. }
  destruct (TablePrinter lib table); simpl.
  { do 2 eexists. split; [reflexivity|]. simpl. tauto. }
  destruct (tableContinue table =? ""); simpl.
  { do 2 eexists. split; [reflexivity|]. simpl. tauto. }
  do 2 eexists. split; [reflexivity|]. simpl. repeat split.
  intros [H|[]]. exact (txt_token_not_prompt _ H).
Qed.

(** C2, as amended.  Without [--interactive], a page that carries a token,
    is not an empty first page and is printed without error is followed by
    one write, a newline and then the line made of the label
    [Continue Token: ] and the token, and the run ends with [nil].  No run
    without [--interactive] sends a second request, reads a keystroke or
    writes the prompt. *)
Theorem single_pass_prints_token (lib : Library) (o : PeekOptions) :
  interactive o = false ->
  (forall ns gvr st table rest stdin,
     tableContinue table <> "" ->
     isFirstRequest st = false \/ Rows table <> [] ->
     TablePrinter lib table = None ->
     forever (RestTable.body lib o ns gvr) (Ok table :: rest) st stdin =
       {| status := Terminated None;
          unread := stdin;
          trace := [EvList gvr ns (listOptions_of o st) (Ok table);
                    EvPrintObj table;
                    EvOut (nl ++ "Continue Token: " ++ tableContinue table ++ nl)] |}) /\
  (forall env,
     List.length (fetches (trace (RestTable.Run lib o env))) <= 1 /\
     reads (trace (RestTable.Run lib o env)) = [] /\
     ~ In txt_prompt (written (trace (RestTable.Run lib o env)))).
Proof.
  intros Hi. split.
  - intros ns gvr st table rest stdin Ht Hp Hr.
    apply forever_return. now apply body_token_single_pass.
  - intros env. unfold RestTable.Run.
    destruct (getResourceGVR lib o) as [gvr|e]; [|simpl; auto].
    destruct (RestTable.newRestClient _ _ _) as [c|e]; [|simpl; auto].
    destruct (responses env) as [|r rest]; [simpl; auto|].
    destruct (body_single_pass lib o (RestTable.scope o) gvr
                (RestTable.initial o) r (keys env) Hi)
      as (err & w & E & Hf & Hr & Hw).
    rewrite (forever_return _ _ _ _ _ _ _ _ _ E). simpl.
    repeat split; trivial. lia.
Qed.

(** The theorem at scenario B: limit 3, six items. *)
Lemma single_pass_prints_token_witness :
  RestTable.Run okLib (sampleOptions "pods" 3 "" false)
    {| responses := [Ok (page 3 "t1"); Ok (page 3 "")]; keys := [] |} =
  {| status := Terminated None;
     unread := [];
     trace := [EvList podsGVR "default"
                 {| Limit := 3; Continue := ""; LabelSelector := "" |}
                 (Ok (page 3 "t1"));
               EvPrintObj (page 3 "t1");
               EvOut (nl ++ "Continue Token: " ++ "t1" ++ nl)] |}.
Proof.
  apply (proj1 (single_pass_prints_token okLib (sampleOptions "pods" 3 "" false)
                  eq_refl) "default" podsGVR
           (RestTable.initial (sampleOptions "pods" 3 "" false))
           (page 3 "t1") [Ok (page 3 "")] []).
  - discriminate.
  - right; discriminate.
  - reflexivity.
Defined.

(** C2 as stated fails: without [--interactive], a first page with no rows
    and a token ends the run with [No resources found.] as its only write;
    the token is not printed. *)
Lemma single_pass_empty_page_hides_token :
  RestTable.Run okLib (sampleOptions "pods" 3 "" false)
    {| responses := [Ok (page 0 "t1")]; keys := [] |} =
  {| status := Terminated None;
     unread := [];
     trace := [EvList podsGVR "default"
                 {| Limit := 3; Continue := ""; LabelSelector := "" |}
                 (Ok (page 0 "t1"));
               EvOut ("No resources found." ++ nl)] |} /\
  ~ In (nl ++ "Continue Token: " ++ "t1" ++ nl)
      (written (trace (RestTable.Run okLib (sampleOptions "pods" 3 "" false)
                         {| responses := [Ok (page 0 "t1")]; keys := [] |}))).
Proof.
  split; [reflexivity|]. intros [H|[]]. discriminate H.
Qed.

(** C3, as amended.  With [--interactive], a page that carries a token, is
    not an empty first page and is printed without error is followed by the
    prompt, which names the two actions, and by the read of one keystroke.
    When a keystroke is read a newline is echoed on standard output; then
    [n] sends the loop to its next pass with the token of this answer as
    the current token, which the next request carries, and any other
    keystroke ends the run with [nil], nothing else being written (no
    token, no end-of-list marker). *)
Theorem interactive_prompts_once (lib : Library) (o : PeekOptions)
    (ns : string) (gvr : GroupVersionResource) (st : SessionState)
    (table : Table) (rest : list (result Table)) (char : rune)
    (more : list (result rune)) :
  interactive o = true ->
  tableContinue table <> "" ->
  isFirstRequest st = false \/ Rows table <> [] ->
  TablePrinter lib table = None ->
  forever (RestTable.body lib o ns gvr) (Ok table :: rest) st (Ok char :: more) =
    (if (char =? rune_n)%Z
     then after [EvList gvr ns (listOptions_of o st) (Ok table);
                 EvPrintObj table;
                 EvOut (nl ++ "--- [n] next page, [q] quit: ");
                 EvReadRune (Ok char);
                 EvStdout nl]
            (forever (RestTable.body lib o ns gvr) rest
               {| st_continueToken := tableContinue table;
                  isFirstRequest := false |} more)
     else {| status := Terminated None;
             unread := more;
             trace := [EvList gvr ns (listOptions_of o st) (Ok table);
                       EvPrintObj table;
                       EvOut (nl ++ "--- [n] next page, [q] quit: ");
                       EvReadRune (Ok char);
                       EvStdout nl] |}) /\
  (forall r rest1, rest = r :: rest1 ->
     exists w,
       trace (forever (RestTable.body lib o ns gvr) rest
                {| st_continueToken := tableContinue table;
                   isFirstRequest := false |} more) =
         EvList gvr ns {| Limit := limit o;
                          Continue := tableContinue table;
                          LabelSelector := selector o |} r :: w).
Proof.
  intros Hi Ht Hp Hr. split.
  - pose proof (body_token_interactive lib o ns gvr st table (Ok char :: more)
                  Hp Hr Ht Hi) as E.
    unfold keystroke in E. simpl in E.
    destruct (char =? rune_n)%Z.
    + now apply forever_next.
    + now apply forever_return.
  - intros r rest1 ->.
    destruct (body_shape lib o ns gvr (continued (tableContinue table)) r more)
      as (out & s1 & w & E & _ & _).
    destruct out as [err|st1].
    + rewrite (forever_return _ _ _ _ _ _ _ _ _ E). now exists w.
    + rewrite (forever_next _ _ _ _ _ _ _ _ _ E). simpl. eexists. reflexivity.
Qed.

(** The theorem at the second prompt of scenario D, answered with [x]. *)
Lemma interactive_prompts_once_witness :
  forever (RestTable.body okLib (sampleOptions "pods" 5 "" true) "default" podsGVR)
    [Ok (page 5 "t2"); Ok (page 2 "")] (continued "t1") [Ok 120%Z] =
  {| status := Terminated None;
     unread := [];
     trace := [EvList podsGVR "default"
                 {| Limit := 5; Continue := "t1"; LabelSelector := "" |}
                 (Ok (page 5 "t2"));
               EvPrintObj (page 5 "t2");
               EvOut (nl ++ "--- [n] next page, [q] quit: ");
               EvReadRune (Ok 120%Z);
               EvStdout nl] |}.
Proof.
  apply (proj1 (interactive_prompts_once okLib (sampleOptions "pods" 5 "" true)
                  "default" podsGVR (continued "t1") (page 5 "t2")
                  [Ok (page 2 "")] 120%Z []
                  eq_refl
                  ltac:(discriminate)
                  (or_introl eq_refl)
                  eq_refl)).
Defined.

(** C3 as stated fails: with [--interactive], a first page with no rows and
    a token ends the run with [No resources found.]; no prompt is written
    and the keystroke that is waiting is not read. *)
Lemma interactive_empty_page_no_prompt :
  RestTable.Run okLib (sampleOptions "pods" 5 "" true)
    {| responses := [Ok (page 0 "t1"); Ok (page 5 "")]; keys := [Ok rune_n] |} =
  {| status := Terminated None;
     unread := [Ok rune_n];
     trace := [EvList podsGVR "default"
                 {| Limit := 5; Continue := ""; LabelSelector := "" |}
                 (Ok (page 0 "t1"));
               EvOut ("No resources found." ++ nl)] |} /\
  ~ In txt_prompt
      (written (trace (RestTable.Run okLib (sampleOptions "pods" 5 "" true)
                         {| responses := [Ok (page 0 "t1"); Ok (page 5 "")];
                            keys := [Ok rune_n] |}))) /\
  reads (trace (RestTable.Run okLib (sampleOptions "pods" 5 "" true)
                  {| responses := [Ok (page 0 "t1"); Ok (page 5 "")];
                     keys := [Ok rune_n] |})) = [].
Proof.
  split; [reflexivity|]. split; [|reflexivity].
  intros [H|[]]. discriminate H.
Qed.

(** ** A keystroke that cannot be read *)

Lemma Dynamic_body_read_error o ns gvr st list stdin printer err :
  interactive o = true ->
  ToPrinter (printFlags o) = Ok printer ->
  printer list = None ->
  GetContinue list <> "" ->
  isFirstRequest st = false \/ Items list <> [] ->
  keystroke stdin = Err err ->
  Dynamic.body o ns gvr st (Ok list) stdin =
    (Return (Some err), tl stdin,
     [EvList gvr ns (listOptions_of o st) (Ok list); EvPrintObj list;
      EvOut txt_prompt; EvReadRune (Err err)]).
Proof.
  intros Hi Hp Hr Ht Hf Hk. unfold_body. apply String.eqb_neq in Ht.
  rewrite rendered_page, Hp by (destruct Hf; auto using rows_length).
  simpl. rewrite Hr, Ht, Hi. simpl.
  destruct stdin as [|[c|e] more]; simpl in *.
  - injection Hk as <-. reflexivity.
  - discriminate.
  - injection Hk as <-. reflexivity.
Qed.

(** C1, as amended.  With [--interactive], when the read of the keystroke
    fails after the prompt (the input is closed or the read returns an
    error), the run ends at once: nothing more is written, not even the
    newline, and no further request is sent.  What [Run] returns is the
    error of the read, not [nil], so the exit status is 1.  Both versions
    do so. *)
Theorem read_failure_is_returned (lib : Library) (o : PeekOptions)
    (ns : string) (gvr : GroupVersionResource) (st : SessionState)
    (stdin : list (result rune)) (err : error) :
  interactive o = true ->
  keystroke stdin = Err err ->
  (forall table rest,
     tableContinue table <> "" ->
     isFirstRequest st = false \/ Rows table <> [] ->
     TablePrinter lib table = None ->
     forever (RestTable.body lib o ns gvr) (Ok table :: rest) st stdin =
       {| status := Terminated (Some err);
          unread := tl stdin;
          trace := [EvList gvr ns (listOptions_of o st) (Ok table);
                    EvPrintObj table;
                    EvOut (nl ++ "--- [n] next page, [q] quit: ");
                    EvReadRune (Err err)] |}) /\
  (forall list rest printer,
     GetContinue list <> "" ->
     isFirstRequest st = false \/ Items list <> [] ->
     ToPrinter (printFlags o) = Ok printer ->
     printer list = None ->
     forever (Dynamic.body o ns gvr) (Ok list :: rest) st stdin =
       {| status := Terminated (Some err);
          unread := tl stdin;
          trace := [EvList gvr ns (listOptions_of o st) (Ok list);
                    EvPrintObj list;
                    EvOut (nl ++ "--- [n] next page, [q] quit: ");
                    EvReadRune (Err err)] |}) /\
  exitCode (Some err) = 1%Z.
Proof.
  intros Hi Hk. split; [|split; [|reflexivity]].
  - intros table rest Ht Hp Hr. apply forever_return.
    rewrite (body_token_interactive lib o ns gvr st table stdin Hp Hr Ht Hi).
    rewrite Hk. reflexivity.
  - intros list rest printer Ht Hf Hp Hr. apply forever_return.
    now apply Dynamic_body_read_error with (printer := printer).
Qed.

(** The theorem at a session whose input is closed at the first prompt. *)
Lemma read_failure_is_returned_witness :
  forever (RestTable.body okLib (sampleOptions "pods" 5 "" true) "default" podsGVR)
    [Ok (page 5 "t1"); Ok (page 2 "")]
    (RestTable.initial (sampleOptions "pods" 5 "" true)) [] =
  {| status := Terminated (Some io_EOF);
     unread := [];
     trace := [EvList podsGVR "default"
                 {| Limit := 5; Continue := ""; LabelSelector := "" |}
                 (Ok (page 5 "t1"));
               EvPrintObj (page 5 "t1");
               EvOut (nl ++ "--- [n] next page, [q] quit: ");
               EvReadRune (Err io_EOF)] |}.
Proof.
  apply (proj1 (read_failure_is_returned okLib (sampleOptions "pods" 5 "" true)
                  "default" podsGVR
                  (RestTable.initial (sampleOptions "pods" 5 "" true))
                  [] io_EOF eq_refl eq_refl)
           (page 5 "t1") [Ok (page 2 "")]).
  - discriminate.
  - right; discriminate.
  - reflexivity.
Defined.

(** C1 as stated fails: with the input closed at the prompt both versions
    return the error of the read and the exit status is 1, where the
    keystroke [q] makes them return [nil], exit status 0. *)
Lemma closed_input_is_not_a_stop :
  status (RestTable.RunE okLib (sampleOptions "" 5 "" true) ["pods"]
            {| responses := [Ok (page 5 "t1"); Ok (page 2 "")]; keys := [] |})
    = Terminated (Some io_EOF) /\
  status (Dynamic.RunE okLib (sampleOptions "" 5 "" true) ["pods"]
            {| responses := [Ok (upage 5 "t1"); Ok (upage 2 "")]; keys := [] |})
    = Terminated (Some io_EOF) /\
  exitCode (Some io_EOF) = 1%Z /\
  status (RestTable.RunE okLib (sampleOptions "" 5 "" true) ["pods"]
            {| responses := [Ok (page 5 "t1"); Ok (page 2 "")];
               keys := [Ok 113%Z] |})
    = Terminated None /\
  status (Dynamic.RunE okLib (sampleOptions "" 5 "" true) ["pods"]
            {| responses := [Ok (upage 5 "t1"); Ok (upage 2 "")];
               keys := [Ok 113%Z] |})
    = Terminated None /\
  exitCode None = 0%Z.
Proof. repeat split. Qed.

(** ** Tokens *)

Lemma forever_token_chain lib o ns gvr rs :
  forall st stdin,
    token_chain tableContinue (st_continueToken st)
      (fetches (trace (forever (RestTable.body lib o ns gvr) rs st stdin))).
Proof.
  induction rs as [|r rs IH]; intros st stdin; [exact I|].
  destruct (body_shape lib o ns gvr st r stdin) as (out & s1 & w & E & Hw & Hn).
  destruct out as [err|st1].
  - rewrite (forever_return _ _ _ _ _ _ _ _ _ E). simpl. rewrite Hw.
    split; [reflexivity|]. destruct r; simpl; trivial.
  - destruct (Hn st1 eq_refl) as (table & -> & _ & _ & _ & -> & _).
    rewrite (forever_next _ _ _ _ _ _ _ _ _ E). simpl.
    rewrite fetches_app, Hw. simpl.
    split; [reflexivity|]. apply (IH (continued (tableContinue table))).
Qed.

Lemma present_eqb a b :
  present a = present b -> (a =? "") = (b =? "").
Proof. unfold present. destruct (a =? ""), (b =? ""); simpl; congruence. Qed.

(** One pass on two answers that differ in the value of the token at most:
    the same writes, reads and decision. *)
Ltac alike_events :=
  try reflexivity; try assumption;
  repeat (apply Forall2_cons;
          [first [assumption | apply alike_out | apply alike_stdout
                 | apply alike_read]|]);
  try apply Forall2_nil.

Lemma body_alike lib o ns gvr st1 st2 r1 r2 stdin :
  isFirstRequest st1 = isFirstRequest st2 ->
  present (st_continueToken st1) = present (st_continueToken st2) ->
  alike_result lib r1 r2 ->
  exists out1 out2 s w1 w2,
    RestTable.body lib o ns gvr st1 r1 stdin = (out1, s, w1) /\
    RestTable.body lib o ns gvr st2 r2 stdin = (out2, s, w2) /\
    Forall2 (alike_event lib) w1 w2 /\
    match out1, out2 with
    | Return e1, Return e2 => e1 = e2
    | Next a, Next b =>
        isFirstRequest a = isFirstRequest b /\
        present (st_continueToken a) = present (st_continueToken b)
    | _, _ => False
    end.
Proof.
  intros Hf Hp Hr.
  assert (L : forall r1 r2, alike_result lib r1 r2 ->
            alike_event lib (EvList gvr ns (listOptions_of o st1) r1)
                            (EvList gvr ns (listOptions_of o st2) r2)).
  { intros. now constructor. }
  specialize (L _ _ Hr). unfold listOptions_of in L.
  destruct Hr as [p q (Hrows & Htok & Hprint)|e]; unfold_body; simpl.
  2:{ do 5 eexists. repeat split; alike_events. }
  rewrite Hf, Hrows.
  destruct (isFirstRequest st2 && (List.length (Rows q) =? 0)%nat); simpl.
  { do 5 eexists. repeat split; alike_events. }
  assert (P : alike_event lib (EvPrintObj p) (EvPrintObj q)).
  { constructor. repeat split; trivial. }
  rewrite Hprint. destruct (TablePrinter lib q); simpl.
  { do 5 eexists. repeat split; alike_events. }
  pose proof (present_eqb _ _ Htok) as Heq. rewrite Heq.
  destruct (tableContinue q =? "") eqn:Eq; simpl.
  { destruct (interactive o); simpl;
      do 5 eexists; repeat split; alike_events. }
  destruct (interactive o); simpl.
  - destruct stdin as [|[c|e] more]; simpl.
    + do 5 eexists. repeat split; alike_events.
    + destruct (c =? rune_n)%Z; simpl;
        do 5 eexists; repeat split; alike_events.
    + do 5 eexists. repeat split; alike_events.
  - do 5 eexists. repeat split.
    constructor; [exact L|]. constructor; [exact P|]. constructor; [|constructor].
    apply (alike_out_token lib (tableContinue p) (tableContinue q));
      unfold present; rewrite ?Heq, ?Eq; reflexivity.
Qed.

Lemma forever_alike lib o ns gvr rs1 rs2 :
  Forall2 (alike_result lib) rs1 rs2 ->
  forall st1 st2 stdin,
    isFirstRequest st1 = isFirstRequest st2 ->
    present (st_continueToken st1) = present (st_continueToken st2) ->
    alike_status
      (status (forever (RestTable.body lib o ns gvr) rs1 st1 stdin))
      (status (forever (RestTable.body lib o ns gvr) rs2 st2 stdin)) /\
    unread (forever (RestTable.body lib o ns gvr) rs1 st1 stdin) =
    unread (forever (RestTable.body lib o ns gvr) rs2 st2 stdin) /\
    Forall2 (alike_event lib)
      (trace (forever (RestTable.body lib o ns gvr) rs1 st1 stdin))
      (trace (forever (RestTable.body lib o ns gvr) rs2 st2 stdin)).
Proof.
  induction 1 as [|r1 r2 rs1 rs2 Hr Hrs IH]; intros st1 st2 stdin Hf Hp.
  - simpl. repeat split; [now constructor|constructor].
  - destruct (body_alike lib o ns gvr st1 st2 r1 r2 stdin Hf Hp Hr)
      as (out1 & out2 & s & w1 & w2 & E1 & E2 & Hw & Ho).
    destruct out1 as [e1|a], out2 as [e2|b]; try contradiction.
    + subst e2.
      rewrite (forever_return _ _ _ _ _ _ _ _ _ E1),
              (forever_return _ _ _ _ _ _ _ _ _ E2).
      simpl. repeat split; [constructor|exact Hw].
    + destruct Ho as [Ha Hb].
      rewrite (forever_next _ _ _ _ _ _ _ _ _ E1),
              (forever_next _ _ _ _ _ _ _ _ _ E2).
      destruct (IH a b s Ha Hb) as (I1 & I2 & I3).
      simpl. repeat split; trivial. now apply Forall2_app.
Qed.

(** C7.  In every run the first request carries the caller's token and each
    later request carries the token of the answer before it, unchanged.
    The only thing the loop asks of a token is whether it is empty: two
    runs on the same flags and input, whose initial tokens and answers
    differ only in the value of tokens that are present in both (and that
    the printer treats alike), end in the same way, leave the same input
    unread and produce the same events up to the values of those tokens. *)
Theorem token_opacity (lib : Library) (o : PeekOptions) :
  (forall env,
     token_chain tableContinue (continueToken o)
       (fetches (trace (RestTable.Run lib o env)))) /\
  (forall tok1 tok2 rs1 rs2 stdin,
     present tok1 = present tok2 ->
     Forall2 (alike_result lib) rs1 rs2 ->
     alike_status
       (status (RestTable.Run lib (with_token o tok1)
                  {| responses := rs1; keys := stdin |}))
       (status (RestTable.Run lib (with_token o tok2)
                  {| responses := rs2; keys := stdin |})) /\
     unread (RestTable.Run lib (with_token o tok1)
               {| responses := rs1; keys := stdin |}) =
     unread (RestTable.Run lib (with_token o tok2)
               {| responses := rs2; keys := stdin |}) /\
     Forall2 (alike_event lib)
       (trace (RestTable.Run lib (with_token o tok1)
                 {| responses := rs1; keys := stdin |}))
       (trace (RestTable.Run lib (with_token o tok2)
                 {| responses := rs2; keys := stdin |}))).
Proof.
  split.
  - intros env. unfold RestTable.Run.
    destruct (getResourceGVR lib o) as [gvr|e]; [|exact I].
    destruct (RestTable.newRestClient _ _ _) as [c|e]; [|exact I].
    apply (forever_token_chain lib o _ gvr (responses env) (RestTable.initial o)).
  - intros tok1 tok2 rs1 rs2 stdin Hp Hrs. unfold RestTable.Run.
    change (getResourceGVR lib (with_token o tok1)) with (getResourceGVR lib o).
    change (getResourceGVR lib (with_token o tok2)) with (getResourceGVR lib o).
    destruct (getResourceGVR lib o) as [gvr|e];
      [|simpl; repeat split; constructor].
    change (restConfig (with_token o tok1)) with (restConfig o).
    change (restConfig (with_token o tok2)) with (restConfig o).
    destruct (RestTable.newRestClient _ _ _) as [c|e];
      [|simpl; repeat split; constructor].
    exact (forever_alike lib (with_token o tok1) (RestTable.scope o) gvr
             rs1 rs2 Hrs (RestTable.initial (with_token o tok1))
             (RestTable.initial (with_token o tok2)) stdin eq_refl Hp).
Qed.

(** The theorem at two runs resumed from a short and from a long token. *)
Lemma token_opacity_witness :
  present "t0" = present "eyJhbGciOiJIUzI1NiIsInR5cCI6IkpXVCJ9" /\
  status (RestTable.Run okLib
            (with_token (sampleOptions "pods" 3 "" false) "t0")
            {| responses := [Ok (page 3 "t1")]; keys := [] |}) =
  status (RestTable.Run okLib
            (with_token (sampleOptions "pods" 3 "" false)
               "eyJhbGciOiJIUzI1NiIsInR5cCI6IkpXVCJ9")
            {| responses := [Ok (page 3 "eyJ2IjoibWV0YS5rOHMuaW8vdjEifQ")];
               keys := [] |}).
Proof.
  split; [reflexivity|].
  assert (H : Forall2 (alike_result okLib) [Ok (page 3 "t1")]
                [Ok (page 3 "eyJ2IjoibWV0YS5rOHMuaW8vdjEifQ")]).
  { repeat constructor. }
  destruct (proj2 (token_opacity okLib (sampleOptions "pods" 3 "" false))
              "t0" "eyJhbGciOiJIUzI1NiIsInR5cCI6IkpXVCJ9" _ _ []
              eq_refl H) as (S & _ & _).
  inversion S; reflexivity.
Defined.

(** ** Termination *)

Lemma forever_terminates lib o ns gvr init :
  forall final st stdin,
    tableContinue final = "" ->
    exists err,
      status (forever (RestTable.body lib o ns gvr)
                (map Ok (init ++ [final])) st stdin) = Terminated err /\
      List.length (fetches (trace (forever (RestTable.body lib o ns gvr)
                                     (map Ok (init ++ [final])) st stdin)))
        <= List.length (init ++ [final]).
Proof.
  induction init as [|p init IH]; intros final st stdin Hfin; simpl map.
  - destruct (body_shape lib o ns gvr st (Ok final) stdin)
      as (out & s1 & w & E & Hw & Hn).
    destruct out as [err|st1].
    + rewrite (forever_return _ _ _ _ _ _ _ _ _ E). simpl. rewrite Hw.
      exists err. split; [reflexivity|]. simpl. lia.
    + destruct (Hn st1 eq_refl) as (table & [= <-] & _ & Ht & _).
      contradiction.
  - destruct (body_shape lib o ns gvr st (Ok p) stdin)
      as (out & s1 & w & E & Hw & Hn).
    destruct out as [err|st1].
    + rewrite (forever_return _ _ _ _ _ _ _ _ _ E). simpl. rewrite Hw.
      exists err. split; [reflexivity|]. simpl. lia.
    + rewrite (forever_next _ _ _ _ _ _ _ _ _ E).
      destruct (IH final st1 s1 Hfin) as (err & Hs & Hl).
      exists err. split; [exact Hs|].
      simpl. rewrite fetches_app, Hw. simpl. simpl in Hl. lia.
Qed.

(** C9.  The only way a pass reaches the end of the loop body, and so the
    only way the loop goes on, is interactive mode with a token in the
    answer and the keystroke [n]; every other path returns.  When the
    server serves the collection in pages the last of which carries no
    token, the run returns, whatever the input, after at most as many
    requests as there are pages, hence within the number of pages plus
    one.  (The input is a finite list of read results followed by a closed
    stream; reads never block.) *)
Theorem loop_terminates (lib : Library) (o : PeekOptions) :
  (forall ns gvr st r stdin st1 stdin1 w,
     RestTable.body lib o ns gvr st r stdin = (Next st1, stdin1, w) ->
     interactive o = true /\ keystroke stdin = Ok rune_n /\
     exists table, r = Ok table /\ tableContinue table <> "") /\
  (forall pages stdin,
     finite_collection pages ->
     exists err,
       status (RestTable.Run lib o
                 {| responses := map Ok pages; keys := stdin |})
         = Terminated err /\
       List.length (fetches (trace (RestTable.Run lib o
                      {| responses := map Ok pages; keys := stdin |})))
         <= List.length pages /\
       List.length (fetches (trace (RestTable.Run lib o
                      {| responses := map Ok pages; keys := stdin |})))
         <= List.length pages + 1).
Proof.
  split.
  - intros ns gvr st r stdin st1 stdin1 w E.
    destruct (body_shape lib o ns gvr st r stdin)
      as (out & s1 & w1 & E1 & _ & Hn).
    rewrite E in E1. injection E1 as <- _ _.
    destruct (Hn st1 eq_refl) as (table & Hr & Hi & Ht & Hk & _).
    repeat split; trivial. now exists table.
  - intros pages stdin (init & final & -> & Hfin). unfold RestTable.Run.
    destruct (getResourceGVR lib o) as [gvr|e].
    2:{ exists (Some e). simpl. repeat split; lia. }
    destruct (RestTable.newRestClient _ _ _) as [c|e].
    2:{ exists (Some e). simpl. repeat split; lia. }
    cbn [responses keys].
    destruct (forever_terminates lib o (RestTable.scope o) gvr init final
                (RestTable.initial o) stdin Hfin) as (err & Hs & Hl).
    exists err. repeat split; trivial. lia.
Qed.

(** The theorem at scenario C: seven items in pages of five, input [n q]. *)
Lemma loop_terminates_witness :
  finite_collection [page 5 "t1"; page 2 ""] /\
  exists err,
    status (RestTable.Run okLib (sampleOptions "pods" 5 "" true)
              {| responses := map Ok [page 5 "t1"; page 2 ""];
                 keys := [Ok rune_n; Ok 113%Z] |}) = Terminated err /\
    List.length (fetches (trace (RestTable.Run okLib
                   (sampleOptions "pods" 5 "" true)
                   {| responses := map Ok [page 5 "t1"; page 2 ""];
                      keys := [Ok rune_n; Ok 113%Z] |}))) <= 2 + 1.
Proof.
  assert (F : finite_collection [page 5 "t1"; page 2 ""]).
  { exists [page 5 "t1"], (page 2 ""). split; reflexivity. }
  split; [exact F|].
  destruct (proj2 (loop_terminates okLib (sampleOptions "pods" 5 "" true))
              [page 5 "t1"; page 2 ""] [Ok rune_n; Ok 113%Z] F)
    as (err & Hs & _ & Hl).
  exists err. split; [exact Hs|exact Hl].
Defined.

(** ** The two versions *)

Lemma view_app (Page : Type) (sum : Page -> summary) (a b : list (Event Page)) :
  controller_view sum (a ++ b) =
    (controller_view sum a ++ controller_view sum b)%list.
Proof. apply flat_map_app. Qed.

(** One pass of each version on the same answer: the same decision, the
    same reads, and the same events apart from the printer calls. *)
Lemma body_same lib o ns gvr st rT rD stdin :
  same_response lib o rT rD ->
  exists out s wT wD,
    RestTable.body lib o ns gvr st rT stdin = (out, s, wT) /\
    Dynamic.body o ns gvr st rD stdin = (out, s, wD) /\
    controller_view table_summary wT = controller_view list_summary wD.
Proof.
  intros [t l Hsum Hprint|e]; unfold_body; simpl.
  2:{ do 4 eexists. repeat split. }
  assert (V : forall opts (a : list (Event Table))
                     (b : list (Event UnstructuredList)),
            controller_view table_summary a = controller_view list_summary b ->
            controller_view table_summary (EvList gvr ns opts (Ok t) :: a) =
            controller_view list_summary (EvList gvr ns opts (Ok l) :: b)).
  { intros opts a b H. unfold controller_view in *. simpl.
    rewrite Hsum. f_equal. exact H. }
  assert (W : forall (a : list (Event Table)) (b : list (Event UnstructuredList)),
            controller_view table_summary a = controller_view list_summary b ->
            controller_view table_summary (EvPrintObj t :: a) =
            controller_view list_summary (EvPrintObj l :: b)).
  { intros a b H. exact H. }
  unfold table_summary, list_summary in Hsum. injection Hsum as Hlen Htok.
  unfold render_error in Hprint. rewrite Hlen.
  destruct (isFirstRequest st && (List.length (Items l) =? 0)%nat); simpl.
  { do 4 eexists. repeat split. now apply V. }
  rewrite Hprint. destruct (ToPrinter (printFlags o)) as [printer|e]; simpl.
  2:{ do 4 eexists. repeat split. now apply V. }
  destruct (printer l); simpl.
  { do 4 eexists. repeat split. now apply V, W. }
  rewrite Htok. destruct (GetContinue l =? ""); simpl.
  { destruct (interactive o); simpl; do 4 eexists; repeat split;
      now apply V, W. }
  destruct (interactive o); simpl.
  - destruct stdin as [|[c|e] more]; simpl.
    + do 4 eexists. repeat split. now apply V, W.
    + destruct (c =? rune_n)%Z; simpl; do 4 eexists; repeat split;
        now apply V, W.
    + do 4 eexists. repeat split. now apply V, W.
  - do 4 eexists. repeat split. now apply V, W.
Qed.

Lemma forever_same lib o ns gvr rsT rsD :
  Forall2 (same_response lib o) rsT rsD ->
  forall st stdin,
    status (forever (RestTable.body lib o ns gvr) rsT st stdin) =
    status (forever (Dynamic.body o ns gvr) rsD st stdin) /\
    unread (forever (RestTable.body lib o ns gvr) rsT st stdin) =
    unread (forever (Dynamic.body o ns gvr) rsD st stdin) /\
    controller_view table_summary
      (trace (forever (RestTable.body lib o ns gvr) rsT st stdin)) =
    controller_view list_summary
      (trace (forever (Dynamic.body o ns gvr) rsD st stdin)).
Proof.
  induction 1 as [|rT rD rsT rsD Hr Hrs IH]; intros st stdin.
  - repeat split.
  - destruct (body_same lib o ns gvr st rT rD stdin Hr)
      as (out & s & wT & wD & ET & ED & Hv).
    destruct out as [err|st1].
    + rewrite (forever_return _ _ _ _ _ _ _ _ _ ET),
              (forever_return _ _ _ _ _ _ _ _ _ ED).
      repeat split. exact Hv.
    + rewrite (forever_next _ _ _ _ _ _ _ _ _ ET),
              (forever_next _ _ _ _ _ _ _ _ _ ED).
      destruct (IH st1 s) as (I1 & I2 & I3).
      simpl. repeat split; trivial. rewrite !view_app. now rewrite Hv, I3.
Qed.

(** C10, as amended.  Take the same flags, the same input, and answers that
    are the same errors or pages with the same item count and token.  If the
    REST client of the first version can be built, and the printing step of
    the two versions ends alike on corresponding pages (both succeed or both
    fail with the same error), the two versions end with the same status,
    leave the same input unread and produce the same requests, reads and
    writes in the same order. *)
Theorem versions_agree (lib : Library) (o : PeekOptions)
    (rsT : list (result Table)) (rsD : list (result UnstructuredList))
    (stdin : list (result rune)) :
  (forall gvr, getResourceGVR lib o = Ok gvr ->
     exists client,
       RestTable.newRestClient lib (restConfig o) (GroupVersion_of gvr)
         = Ok client) ->
  Forall2 (same_response lib o) rsT rsD ->
  status (RestTable.Run lib o {| responses := rsT; keys := stdin |}) =
  status (Dynamic.Run lib o {| responses := rsD; keys := stdin |}) /\
  unread (RestTable.Run lib o {| responses := rsT; keys := stdin |}) =
  unread (Dynamic.Run lib o {| responses := rsD; keys := stdin |}) /\
  controller_view table_summary
    (trace (RestTable.Run lib o {| responses := rsT; keys := stdin |})) =
  controller_view list_summary
    (trace (Dynamic.Run lib o {| responses := rsD; keys := stdin |})).
Proof.
  intros Hc Hrs. unfold RestTable.Run, Dynamic.Run.
  destruct (getResourceGVR lib o) as [gvr|e]; [|repeat split].
  destruct (Hc gvr eq_refl) as [client ->].
  apply (forever_same lib o (RestTable.scope o) gvr rsT rsD Hrs).
Qed.

(** The theorem at scenario D: twelve items in pages of five, input [n x]. *)
Lemma versions_agree_witness :
  status (RestTable.Run okLib (sampleOptions "pods" 5 "" true)
            {| responses := [Ok (page 5 "t1"); Ok (page 5 "t2"); Ok (page 2 "")];
               keys := [Ok rune_n; Ok 120%Z] |}) =
  status (Dynamic.Run okLib (sampleOptions "pods" 5 "" true)
            {| responses := [Ok (upage 5 "t1"); Ok (upage 5 "t2");
                             Ok (upage 2 "")];
               keys := [Ok rune_n; Ok 120%Z] |}) /\
  controller_view table_summary
    (trace (RestTable.Run okLib (sampleOptions "pods" 5 "" true)
              {| responses := [Ok (page 5 "t1"); Ok (page 5 "t2"); Ok (page 2 "")];
                 keys := [Ok rune_n; Ok 120%Z] |})) =
  controller_view list_summary
    (trace (Dynamic.Run okLib (sampleOptions "pods" 5 "" true)
              {| responses := [Ok (upage 5 "t1"); Ok (upage 5 "t2");
                               Ok (upage 2 "")];
                 keys := [Ok rune_n; Ok 120%Z] |})).
Proof.
  assert (C : forall gvr,
            getResourceGVR okLib (sampleOptions "pods" 5 "" true) = Ok gvr ->
            exists client,
              RestTable.newRestClient okLib
                (restConfig (sampleOptions "pods" 5 "" true))
                (GroupVersion_of gvr) = Ok client).
  { intros gvr _. eexists. reflexivity. }
  assert (R : Forall2 (same_response okLib (sampleOptions "pods" 5 "" true))
                [Ok (page 5 "t1"); Ok (page 5 "t2"); Ok (page 2 "")]
                [Ok (upage 5 "t1"); Ok (upage 5 "t2"); Ok (upage 2 "")]).
  { repeat constructor. }
  destruct (versions_agree okLib (sampleOptions "pods" 5 "" true) _ _
              [Ok rune_n; Ok 120%Z] C R) as (H1 & _ & H3).
  split; [exact H1|exact H3].
Defined.

(** C10 as stated fails: with [-o] set to a format [ToPrinter] has no
    printer for, and the same page of three items with a token, the first
    version prints the page and the token line and returns [nil], the
    second returns the error of [ToPrinter] and writes nothing. *)
Lemma versions_differ_without_printer :
  table_summary (page 3 "t1") = list_summary (upage 3 "t1") /\
  status (RestTable.Run okLib
            (withPrintFlags (sampleOptions "pods" 3 "" false) badPrintFlags)
            {| responses := [Ok (page 3 "t1")]; keys := [] |})
    = Terminated None /\
  written (trace (RestTable.Run okLib
            (withPrintFlags (sampleOptions "pods" 3 "" false) badPrintFlags)
            {| responses := [Ok (page 3 "t1")]; keys := [] |}))
    = [nl ++ "Continue Token: " ++ "t1" ++ nl] /\
  status (Dynamic.Run okLib
            (withPrintFlags (sampleOptions "pods" 3 "" false) badPrintFlags)
            {| responses := [Ok (upage 3 "t1")]; keys := [] |})
    = Terminated
        (Some "unable to match a printer suitable for the output format") /\
  written (trace (Dynamic.Run okLib
            (withPrintFlags (sampleOptions "pods" 3 "" false) badPrintFlags)
            {| responses := [Ok (upage 3 "t1")]; keys := [] |}))
    = [].
Proof. repeat split. Qed.

(** * Further properties of the program *)

(** ** Flags and arguments *)

(** [Validate] accepts exactly the flags with a positive limit that, when
    [--interactive] is set, have no [--continue] token and the default or
    the [wide] output format; without [--interactive] any token and any
    output format pass.  When several rules are broken the limit is
    reported first, then the two flags used together, then the format. *)
Theorem Validate_characterised (o : PeekOptions) :
  (Validate o = None <->
   (0 < limit o)%Z /\
   (interactive o = false \/
    (continueToken o = "" /\
     (OutputFormat (printFlags o) = "" \/
      OutputFormat (printFlags o) = "wide")))) /\
  ((limit o <= 0)%Z -> Validate o = Some msg_limit) /\
  ((0 < limit o)%Z -> interactive o = true -> continueToken o <> "" ->
   Validate o = Some msg_together) /\
  ((0 < limit o)%Z -> interactive o = true -> continueToken o = "" ->
   OutputFormat (printFlags o) <> "" ->
   OutputFormat (printFlags o) <> "wide" ->
   Validate o = Some msg_format).
Proof.
  unfold Validate.
  destruct (Z.leb_spec (limit o) 0) as [Hl|Hl];
    destruct (interactive o); simpl;
    destruct (String.eqb_spec (continueToken o) "") as [Ht|Ht]; simpl;
    destruct (String.eqb_spec (OutputFormat (printFlags o)) "") as [Hf|Hf];
    simpl;
    destruct (String.eqb_spec (OutputFormat (printFlags o)) "wide") as [Hw|Hw];
    simpl;
    (split; [split; [intros H|intros (H1 & H2)]|split; [|split]]);
    try discriminate; try reflexivity; try (intros; lia);
    try (intros; congruence); try tauto;
    try (split; [lia|tauto]);
    try (destruct H2 as [H2|[H2 [H3|H3]]]; congruence).
Qed.

(** The theorem at [--limit 3 --continue t1 -o json] without
    [--interactive], which passes. *)
Lemma Validate_characterised_witness :
  Validate (withPrintFlags (sampleOptions "pods" 3 "t1" false)
              {| OutputFormat := "json"; ToPrinter := Ok (fun _ => None) |})
    = None.
Proof.
  apply (proj2 (proj1 (Validate_characterised
                         (withPrintFlags (sampleOptions "pods" 3 "t1" false)
                            {| OutputFormat := "json";
                               ToPrinter := Ok (fun _ => None) |})))).
  split; [reflexivity|left; reflexivity].
Defined.

(** The command takes exactly one argument: with none, or with more than
    one, both versions return the matching message at once, whatever the
    flags and the configuration; no request is sent and nothing is written
    or read. *)
Theorem RunE_argument_count (lib : Library) (o : PeekOptions)
    (args : list string) :
  List.length args <> 1 ->
  exists err,
    err = (if (List.length args =? 0)%nat then msg_no_args else msg_many_args) /\
    (forall env, RestTable.RunE lib o args env = failed err (keys env)) /\
    (forall env, Dynamic.RunE lib o args env = failed err (keys env)) /\
    exitCode (Some err) = 1%Z.
Proof.
  intros H. destruct args as [|a [|b args]]; simpl in *; try lia;
    eexists; repeat split.
Qed.

(** The theorem at [kubectl peek pods services]. *)
Lemma RunE_argument_count_witness :
  RestTable.RunE okLib (sampleOptions "" 10 "" false) ["pods"; "services"]
    {| responses := [Ok (page 3 "")]; keys := [] |}
  = failed msg_many_args [].
Proof.
  destruct (RunE_argument_count okLib (sampleOptions "" 10 "" false)
              ["pods"; "services"] ltac:(discriminate))
    as (err & -> & H & _).
  exact (H {| responses := [Ok (page 3 "")]; keys := [] |}).
Defined.

(** ** Configuration *)

(** [Complete] only fills the calculated fields: when it succeeds the
    mapper and the namespace are the ones the configuration flags gave,
    and the argument and every flag are as they were.  The first version
    also stores the REST configuration; the second leaves that field
    alone. *)
Theorem Complete_fills_calculated_only (lib : Library) (o o1 : PeekOptions) :
  RestTable.Complete lib o = Ok o1 \/ Dynamic.Complete lib o = Ok o1 ->
  ToRESTMapper (configFlags o) = Ok (mapper o1) /\
  ToRawKubeConfigLoader_Namespace (configFlags o) = Ok (namespace o1) /\
  resource o1 = resource o /\ limit o1 = limit o /\
  continueToken o1 = continueToken o /\ interactive o1 = interactive o /\
  selector o1 = selector o /\ allNamespaces o1 = allNamespaces o /\
  printFlags o1 = printFlags o /\ configFlags o1 = configFlags o /\
  Validate o1 = Validate o /\
  (RestTable.Complete lib o = Ok o1 ->
   ToRESTConfig (configFlags o) = Ok (restConfig o1)) /\
  (Dynamic.Complete lib o = Ok o1 -> restConfig o1 = restConfig o).
Proof.
  unfold RestTable.Complete, Dynamic.Complete.
  destruct (ToRESTMapper (configFlags o)) as [m|e];
    [|intros [H|H]; discriminate].
  destruct (ToRawKubeConfigLoader_Namespace (configFlags o)) as [ns|e];
    [|intros [H|H]; discriminate].
  destruct (ToRESTConfig (configFlags o)) as [cfg|e];
    [|intros [H|H]; discriminate].
  destruct (NewForConfig lib cfg); [intros [H|H]; discriminate|].
  intros [[= <-]|[= <-]]; simpl; repeat split; intros [= E]; congruence.
Qed.

(** The theorem at the sample configuration. *)
Lemma Complete_fills_calculated_only_witness :
  limit (set_calculated (sampleOptions "pods" 7 "" true) sampleMapper
           "default" sampleConfig) = 7%Z.
Proof.
  destruct (Complete_fills_calculated_only okLib
              (sampleOptions "pods" 7 "" true)
              (set_calculated (sampleOptions "pods" 7 "" true) sampleMapper
                 "default" sampleConfig)
              (or_introl eq_refl)) as (_ & _ & _ & H & _).
  exact H.
Defined.

(** A configuration step that fails ends the invocation with its error,
    before the flags are validated and before any request: the steps are
    tried in the order mapper, namespace, REST configuration, dynamic
    client, and the first failure is the one reported, also when the flags
    are invalid. *)
Theorem configuration_failure_aborts (lib : Library) (o : PeekOptions)
    (r : string) (env : Env Table) (e : error) :
  (ToRESTMapper (configFlags o) = Err e \/
   (exists m, ToRESTMapper (configFlags o) = Ok m /\
      (ToRawKubeConfigLoader_Namespace (configFlags o) = Err e \/
       (exists ns, ToRawKubeConfigLoader_Namespace (configFlags o) = Ok ns /\
          (ToRESTConfig (configFlags o) = Err e \/
           (exists cfg, ToRESTConfig (configFlags o) = Ok cfg /\
              NewForConfig lib cfg = Some e)))))) ->
  RestTable.RunE lib o [r] env = failed e (keys env) /\
  (forall envD, Dynamic.RunE lib o [r] envD = failed e (keys envD)).
Proof.
  intros H. unfold RestTable.RunE, Dynamic.RunE, RestTable.Complete,
    Dynamic.Complete. simpl.
  destruct H as [->|(m & -> & [->|(ns & -> & [->|(cfg & -> & ->)])])];
    split; reflexivity.
Qed.

(** The theorem at a configuration without a readable namespace, with an
    invalid limit on top. *)
Lemma configuration_failure_aborts_witness :
  RestTable.RunE okLib
    {| configFlags := {| ToRESTMapper := Ok sampleMapper;
                         ToRawKubeConfigLoader_Namespace := Err "no context";
                         ToRESTConfig := Ok sampleConfig |};
       printFlags := samplePrintFlags; resource := ""; limit := 0;
       continueToken := ""; interactive := false; selector := "";
       allNamespaces := false; namespace := ""; mapper := sampleMapper;
       restConfig := sampleConfig |}
    ["pods"] {| responses := [Ok (page 3 "")]; keys := [] |}
  = failed "no context" [].
Proof.
  refine (proj1 (configuration_failure_aborts okLib _ "pods" _ "no context" _)).
  right. exists sampleMapper. split; [reflexivity|]. left. reflexivity.
Defined.

(** ** Whole runs of the first version *)

Lemma first_empty_or_rendered (st : SessionState) (table : Table) :
  (isFirstRequest st = true /\ Rows table = []) \/
  (isFirstRequest st = false \/ Rows table <> []).
Proof.
  destruct (isFirstRequest st); [|right; left; reflexivity].
  destruct (Rows table); [left; split; reflexivity|right; right; discriminate].
Qed.

(** The seven ways a pass can go. *)
Lemma body_cases lib o ns gvr st r stdin :
  (exists e, r = Err e /\
     RestTable.body lib o ns gvr st r stdin =
       (Return (Some e), stdin, [EvList gvr ns (listOptions_of o st) r])) \/
  (exists t, r = Ok t /\ isFirstRequest st = true /\ Rows t = [] /\
     RestTable.body lib o ns gvr st r stdin =
       (Return None, stdin,
        [EvList gvr ns (listOptions_of o st) r; EvOut txt_no_resources])) \/
  (exists t e, r = Ok t /\ (isFirstRequest st = false \/ Rows t <> []) /\
     TablePrinter lib t = Some e /\
     RestTable.body lib o ns gvr st r stdin =
       (Return (Some e), stdin,
        [EvList gvr ns (listOptions_of o st) r; EvPrintObj t])) \/
  (exists t, r = Ok t /\ (isFirstRequest st = false \/ Rows t <> []) /\
     TablePrinter lib t = None /\ tableContinue t = "" /\
     RestTable.body lib o ns gvr st r stdin =
       (Return None, stdin,
        EvList gvr ns (listOptions_of o st) r :: EvPrintObj t ::
        (if interactive o then [EvOut txt_end_of_list] else []))) \/
  (exists t, r = Ok t /\ (isFirstRequest st = false \/ Rows t <> []) /\
     TablePrinter lib t = None /\ tableContinue t <> "" /\
     interactive o = false /\
     RestTable.body lib o ns gvr st r stdin =
       (Return None, stdin,
        [EvList gvr ns (listOptions_of o st) r; EvPrintObj t;
         EvOut (txt_token (tableContinue t))])) \/
  (exists t e, r = Ok t /\ (isFirstRequest st = false \/ Rows t <> []) /\
     TablePrinter lib t = None /\ tableContinue t <> "" /\
     interactive o = true /\ keystroke stdin = Err e /\
     RestTable.body lib o ns gvr st r stdin =
       (Return (Some e), tl stdin,
        [EvList gvr ns (listOptions_of o st) r; EvPrintObj t;
         EvOut txt_prompt; EvReadRune (Err e)])) \/
  (exists t c more, r = Ok t /\ (isFirstRequest st = false \/ Rows t <> []) /\
     TablePrinter lib t = None /\ tableContinue t <> "" /\
     interactive o = true /\ stdin = Ok c :: more /\
     RestTable.body lib o ns gvr st r stdin =
       (if (c =? rune_n)%Z then Next (continued (tableContinue t))
        else Return None,
        more,
        [EvList gvr ns (listOptions_of o st) r; EvPrintObj t;
         EvOut txt_prompt; EvReadRune (Ok c); EvStdout nl])).
Proof.
  destruct r as [t|e]; [|left; exists e; split; reflexivity].
  right.
  destruct (first_empty_or_rendered st t) as [[Hf Hr]|Hp].
  { left. exists t. repeat split; trivial. now apply body_empty_first. }
  right.
  destruct (TablePrinter lib t) as [e|] eqn:Hpr.
  { left. exists t, e. repeat split; trivial. now apply body_print_error. }
  right.
  destruct (String.eqb_spec (tableContinue t) "") as [Ht|Ht].
  { left. exists t. repeat split; trivial. now apply body_no_token. }
  right.
  destruct (interactive o) eqn:Hi.
  2:{ left. exists t. repeat split; trivial.
      now apply body_token_single_pass. }
  right.
  pose proof (body_token_interactive lib o ns gvr st t stdin Hp Hpr Ht Hi) as E.
  destruct stdin as [|[c|e] more]; unfold keystroke in *; simpl in *.
  - left. exists t, io_EOF. repeat split; trivial.
  - right. exists t, c, more. repeat split; trivial.
  - left. exists t, e. repeat split; trivial.
Qed.

(** Induction over the passes of a run. *)
Lemma forever_induction (Page : Type)
    (body : SessionState -> result Page -> M Page Outcome)
    (Q : list (result Page) -> SessionState -> list (result rune) ->
         Execution Page -> Prop) :
  (forall st stdin,
     Q [] st stdin {| status := Pending st; unread := stdin; trace := [] |}) ->
  (forall r rest st stdin err stdin1 w,
     body st r stdin = (Return err, stdin1, w) ->
     Q (r :: rest) st stdin
       {| status := Terminated err; unread := stdin1; trace := w |}) ->
  (forall r rest st stdin st1 stdin1 w,
     body st r stdin = (Next st1, stdin1, w) ->
     Q rest st1 stdin1 (forever body rest st1 stdin1) ->
     Q (r :: rest) st stdin (after w (forever body rest st1 stdin1))) ->
  forall rs st stdin, Q rs st stdin (forever body rs st stdin).
Proof.
  intros H0 HR HN. induction rs as [|r rs IH]; intros st stdin.
  - apply H0.
  - destruct (body st r stdin) as [[out stdin1] w] eqn:E.
    destruct out as [err|st1].
    + rewrite (forever_return _ _ _ _ _ _ _ _ _ E). now apply HR.
    + rewrite (forever_next _ _ _ _ _ _ _ _ _ E). apply HN; [exact E|apply IH].
Qed.

(** A pass that goes on: what it wrote and read. *)
Lemma body_next_inv lib o ns gvr st r stdin st1 stdin1 w :
  RestTable.body lib o ns gvr st r stdin = (Next st1, stdin1, w) ->
  exists t,
    r = Ok t /\ (isFirstRequest st = false \/ Rows t <> []) /\
    TablePrinter lib t = None /\ tableContinue t <> "" /\
    interactive o = true /\ stdin = Ok rune_n :: stdin1 /\
    st1 = continued (tableContinue t) /\
    w = [EvList gvr ns (listOptions_of o st) r; EvPrintObj t;
         EvOut txt_prompt; EvReadRune (Ok rune_n); EvStdout nl].
Proof.
  intros E.
  destruct (body_cases lib o ns gvr st r stdin)
    as [(e & _ & B)|[(t & _ & _ & _ & B)|[(t & e & _ & _ & _ & B)|
       [(t & _ & _ & _ & _ & B)|[(t & _ & _ & _ & _ & _ & B)|
       [(t & e & _ & _ & _ & _ & _ & _ & B)|
        (t & c & more & Hr & Hp & Hpr & Ht & Hi & Hs & B)]]]]]];
    rewrite B in E; try discriminate.
  destruct (Z.eqb_spec c rune_n) as [->|Hc]; [|discriminate].
  injection E as <- <- <-. exists t. repeat split; trivial.
Qed.

Lemma requests_app (Page : Type) (a b : list (Event Page)) :
  requests (a ++ b) = (requests a ++ requests b)%list.
Proof.
  induction a as [|e a IH]; simpl; [reflexivity|].
  destruct e; simpl; now rewrite ?IH.
Qed.


Lemma written_app (Page : Type) (a b : list (Event Page)) :
  written (a ++ b) = (written a ++ written b)%list.
Proof.
  induction a as [|e a IH]; simpl; [reflexivity|].
  destruct e; simpl; now rewrite ?IH.
Qed.

Lemma printed_app (Page : Type) (a b : list (Event Page)) :
  printed (a ++ b) = (printed a ++ printed b)%list.
Proof.
  induction a as [|e a IH]; simpl; [reflexivity|].
  destruct e; simpl; now rewrite ?IH.
Qed.

(** What [Run] is once the resource is resolved and the client built. *)
Lemma Run_cases lib o env :
  (exists e, RestTable.Run lib o env = failed e (keys env) /\
     (getResourceGVR lib o = Err e \/
      exists gvr, getResourceGVR lib o = Ok gvr /\
        RestTable.newRestClient lib (restConfig o) (GroupVersion_of gvr)
          = Err e)) \/
  (exists gvr client,
     getResourceGVR lib o = Ok gvr /\
     RestTable.newRestClient lib (restConfig o) (GroupVersion_of gvr)
       = Ok client /\
     RestTable.Run lib o env =
       forever (RestTable.body lib o (RestTable.scope o) gvr) (responses env)
         (RestTable.initial o) (keys env)).
Proof.
  unfold RestTable.Run.
  destruct (getResourceGVR lib o) as [gvr|e]; [|left; exists e; auto].
  destruct (RestTable.newRestClient _ _ _) as [c|e] eqn:C.
  - right. exists gvr, c. auto.
  - left. exists e. split; [reflexivity|]. right. exists gvr. auto.
Qed.

Ltac pass_cases lib o ns gvr st r stdin :=
  destruct (body_cases lib o ns gvr st r stdin)
    as [(pe & PR & PB)
       |[(pt & PR & PF & PRows & PB)
       |[(pt & pe & PR & PP & PPr & PB)
       |[(pt & PR & PP & PPr & PT & PB)
       |[(pt & PR & PP & PPr & PT & PI & PB)
       |[(pt & pe & PR & PP & PPr & PT & PI & PK & PB)
        |(pt & pc & pmore & PR & PP & PPr & PT & PI & PS & PB)]]]]]].

(** A pass that returns, case by case: [E] is rewritten to the case. *)
Ltac return_cases lib o ns gvr st r stdin E :=
  pass_cases lib o ns gvr st r stdin;
  match goal with
  | B : RestTable.body _ _ _ _ _ _ _ = _ |- _ => rewrite B in E
  end;
  [ | | | | | |
    match type of E with
    | context [(?c =? rune_n)%Z] =>
        destruct (Z.eqb_spec c rune_n) as [PC|PC]; [discriminate E|]
    end ];
  injection E as <- <- <-.

Lemma fetches_requests (Page : Type) (w : list (Event Page)) :
  List.length (requests w) = List.length (fetches w).
Proof.
  induction w as [|e w IH]; simpl; [reflexivity|].
  destruct e; simpl; now rewrite ?IH.
Qed.



Lemma forever_requests lib o ns gvr rs :
  forall st stdin,
    Forall (fun q => fst (fst q) = gvr /\ snd (fst q) = ns /\
                     Limit (snd q) = limit o /\
                     LabelSelector (snd q) = selector o)
      (requests (trace (forever (RestTable.body lib o ns gvr) rs st stdin))).
Proof.
  apply (forever_induction Table (RestTable.body lib o ns gvr)
    (fun _ _ _ x =>
       Forall (fun q => fst (fst q) = gvr /\ snd (fst q) = ns /\
                        Limit (snd q) = limit o /\
                        LabelSelector (snd q) = selector o)
         (requests (trace x)))).
  - intros. constructor.
  - intros r rest st stdin err stdin1 w E.
    destruct (body_shape lib o ns gvr st r stdin) as (out & s1 & w1 & B & Hw & _).
    rewrite B in E. injection E as _ _ <-. simpl.
    pose proof (fetches_requests _ w1) as L. rewrite Hw in L.
    destruct (requests w1); [|discriminate]. repeat constructor.
  - intros r rest st stdin st1 stdin1 w E IH.
    destruct (body_next_inv _ _ _ _ _ _ _ _ _ _ E) as (t & _ & _ & _ & _ & _ & _ & _ & ->).
    simpl. constructor; [repeat split|exact IH].
Qed.

(** Every request of a run asks for the resolved resource, in the namespace
    of the configuration or in all namespaces when [--all-namespaces] is
    set, with the [--limit] and the [--selector] given: only the token
    changes from one request to the next. *)
Theorem requests_are_uniform (lib : Library) (o : PeekOptions)
    (env : Env Table) (gvr : GroupVersionResource) :
  getResourceGVR lib o = Ok gvr ->
  Forall (fun q => fst (fst q) = gvr /\
                   snd (fst q) = (if allNamespaces o then "" else namespace o) /\
                   Limit (snd q) = limit o /\
                   LabelSelector (snd q) = selector o)
    (requests (trace (RestTable.Run lib o env))).
Proof.
  intros G. destruct (Run_cases lib o env) as [(e & -> & _)|(g & c & G1 & _ & ->)].
  - constructor.
  - rewrite G in G1. injection G1 as <-.
    apply (forever_requests lib o (RestTable.scope o) gvr).
Qed.

(** The theorem at an interactive session of two pages. *)
Lemma requests_are_uniform_witness :
  Forall (fun q => fst (fst q) = podsGVR /\ snd (fst q) = "default" /\
                   Limit (snd q) = 5%Z /\ LabelSelector (snd q) = "")
    (requests (trace (RestTable.Run okLib (sampleOptions "pods" 5 "" true)
                        {| responses := [Ok (page 5 "t1"); Ok (page 2 "")];
                           keys := [Ok rune_n] |}))).
Proof.
  exact (requests_are_uniform okLib (sampleOptions "pods" 5 "" true)
           {| responses := [Ok (page 5 "t1"); Ok (page 2 "")];
              keys := [Ok rune_n] |} podsGVR eq_refl).
Defined.



Lemma txt_token_eqb_prompt tok : (txt_token tok =? txt_prompt) = false.
Proof. reflexivity. Qed.




Lemma forever_printed lib o ns gvr rs :
  forall st stdin,
    printed (trace (forever (RestTable.body lib o ns gvr) rs st stdin))
      = pages_of (fetches (trace (forever (RestTable.body lib o ns gvr) rs st stdin))) \/
    (isFirstRequest st = true /\
     exists opts p,
       fetches (trace (forever (RestTable.body lib o ns gvr) rs st stdin))
         = [(opts, Ok p)] /\
       Rows p = [] /\
       printed (trace (forever (RestTable.body lib o ns gvr) rs st stdin)) = []).
Proof.
  apply (forever_induction Table (RestTable.body lib o ns gvr)
    (fun _ st _ x =>
       printed (trace x) = pages_of (fetches (trace x)) \/
       (isFirstRequest st = true /\
        exists opts p,
          fetches (trace x) = [(opts, Ok p)] /\ Rows p = [] /\
          printed (trace x) = []))).
  - intros. left. reflexivity.
  - intros r rest st stdin err stdin1 w E.
    return_cases lib o ns gvr st r stdin E; subst r; simpl;
      try (left; try destruct (interactive o); reflexivity).
    right. split; [assumption|]. do 2 eexists. repeat split. assumption.
  - intros r rest st stdin st1 stdin1 w E IH.
    destruct (body_next_inv _ _ _ _ _ _ _ _ _ _ E)
      as (t & -> & _ & _ & _ & _ & _ & -> & ->).
    left. destruct IH as [IH|[IH _]]; [|discriminate IH].
    simpl. now rewrite IH.
Qed.

(** Every page fetched is handed to the printer once, in the order it was
    fetched, and nothing else is: the pages printed are the pages of the
    answers.  The one exception is the run that ends on an empty first
    page, which prints no page. *)
Theorem every_page_is_printed_once (lib : Library) (o : PeekOptions)
    (env : Env Table) :
  printed (trace (RestTable.Run lib o env))
    = pages_of (fetches (trace (RestTable.Run lib o env))) \/
  (exists opts p,
     fetches (trace (RestTable.Run lib o env)) = [(opts, Ok p)] /\
     Rows p = [] /\ printed (trace (RestTable.Run lib o env)) = []).
Proof.
  destruct (Run_cases lib o env) as [(e & -> & _)|(g & c & _ & _ & ->)].
  - left. reflexivity.
  - destruct (forever_printed lib o (RestTable.scope o) g (responses env)
                (RestTable.initial o) (keys env)) as [H|[_ H]]; auto.
Qed.

Lemma forever_mode_writes lib o ns gvr rs :
  forall st stdin,
    (interactive o = true ->
     existsb is_token_line
       (written (trace (forever (RestTable.body lib o ns gvr) rs st stdin)))
       = false) /\
    (interactive o = false ->
     existsb (fun s => (s =? txt_end_of_list) || (s =? txt_prompt) || (s =? nl))
       (written (trace (forever (RestTable.body lib o ns gvr) rs st stdin)))
       = false).
Proof.
  apply (forever_induction Table (RestTable.body lib o ns gvr)
    (fun _ _ _ x =>
       (interactive o = true ->
        existsb is_token_line (written (trace x)) = false) /\
       (interactive o = false ->
        existsb (fun s => (s =? txt_end_of_list) || (s =? txt_prompt) || (s =? nl))
          (written (trace x)) = false))).
  - intros. split; reflexivity.
  - intros r rest st stdin err stdin1 w E.
    return_cases lib o ns gvr st r stdin E; simpl;
      try (split; reflexivity);
      try (split; intros Hi; rewrite Hi; reflexivity);
      try (split; intros Hi; congruence).
  - intros r rest st stdin st1 stdin1 w E (IH1 & IH2).
    destruct (body_next_inv _ _ _ _ _ _ _ _ _ _ E)
      as (t & _ & _ & _ & _ & Hi & _ & _ & ->).
    split; intros Hj; [|congruence]. simpl. exact (IH1 Hj).
Qed.

(** What each mode never writes.  With [--interactive] no run writes a
    line that starts with the [Continue Token:] label, whatever tokens the
    server returns; without it no run writes the end-of-list marker, the
    prompt or the bare newline. *)
Theorem mode_never_writes (lib : Library) (o : PeekOptions) (env : Env Table) :
  (interactive o = true ->
   existsb is_token_line (written (trace (RestTable.Run lib o env))) = false) /\
  (interactive o = false ->
   existsb (fun s => (s =? txt_end_of_list) || (s =? txt_prompt) || (s =? nl))
     (written (trace (RestTable.Run lib o env))) = false).
Proof.
  destruct (Run_cases lib o env) as [(e & -> & _)|(g & c & _ & _ & ->)].
  - split; reflexivity.
  - apply forever_mode_writes.
Qed.

(** The theorem at an interactive session stopped at the first prompt. *)
Lemma mode_never_writes_witness :
  existsb is_token_line
    (written (trace (RestTable.Run okLib (sampleOptions "pods" 5 "" true)
                       {| responses := [Ok (page 5 "t1")];
                          keys := [Ok 113%Z] |}))) = false.
Proof.
  exact (proj1 (mode_never_writes okLib (sampleOptions "pods" 5 "" true)
                  {| responses := [Ok (page 5 "t1")]; keys := [Ok 113%Z] |})
           eq_refl).
Defined.




Lemma forever_no_resources lib o ns gvr rs :
  forall st stdin,
    In txt_no_resources
      (written (trace (forever (RestTable.body lib o ns gvr) rs st stdin))) ->
    isFirstRequest st = true /\
    exists p rest,
      rs = Ok p :: rest /\ Rows p = [] /\
      forever (RestTable.body lib o ns gvr) rs st stdin =
        {| status := Terminated None;
           unread := stdin;
           trace := [EvList gvr ns (listOptions_of o st) (Ok p);
                     EvOut txt_no_resources] |}.
Proof.
  apply (forever_induction Table (RestTable.body lib o ns gvr)
    (fun rs st stdin x =>
       In txt_no_resources (written (trace x)) ->
       isFirstRequest st = true /\
       exists p rest,
         rs = Ok p :: rest /\ Rows p = [] /\
         x = {| status := Terminated None;
                unread := stdin;
                trace := [EvList gvr ns (listOptions_of o st) (Ok p);
                          EvOut txt_no_resources] |})).
  - intros st stdin [].
  - intros r rest st stdin err stdin1 w E.
    return_cases lib o ns gvr st r stdin E; intros H; simpl in H;
      try (destruct (interactive o); simpl in H);
      try (exfalso;
           repeat (destruct H as [H|H]; [discriminate H|]); exact H).
    all: subst r; split; [assumption|]; exists pt, rest; auto.
  - intros r rest st stdin st1 stdin1 w E IH.
    destruct (body_next_inv _ _ _ _ _ _ _ _ _ _ E)
      as (t & _ & _ & _ & _ & _ & _ & -> & ->).
    simpl. intros [H|[H|H]]; try discriminate H.
    destruct (IH H) as [F _]. discriminate F.
Qed.

(** [No resources found.] is written only for an empty first page: a run
    that writes it has sent one request, got a page without rows, written
    nothing else, printed nothing and returned [nil]; an empty page later in
    a session is printed like any other. *)
Theorem no_resources_only_on_empty_first_page (lib : Library)
    (o : PeekOptions) (env : Env Table) :
  In txt_no_resources (written (trace (RestTable.Run lib o env))) ->
  exists gvr p rest,
    responses env = Ok p :: rest /\ Rows p = [] /\
    RestTable.Run lib o env =
      {| status := Terminated None;
         unread := keys env;
         trace := [EvList gvr (RestTable.scope o)
                     (listOptions_of o (RestTable.initial o)) (Ok p);
                   EvOut txt_no_resources] |}.
Proof.
  destruct (Run_cases lib o env) as [(e1 & -> & H)|(g & c & _ & _ & ->)].
  - intros [].
  - intros H.
    destruct (forever_no_resources lib o _ g _ _ _ H) as (_ & p & rest & R & Hr & E).
    exists g, p, rest. auto.
Qed.

(** The theorem at an empty namespace. *)
Lemma no_resources_only_on_empty_first_page_witness :
  exists gvr p rest,
    [Ok (page 0 ""); Ok (page 4 "")] = Ok p :: rest /\ Rows p = [] /\
    RestTable.Run okLib (sampleOptions "pods" 5 "" false)
      {| responses := [Ok (page 0 ""); Ok (page 4 "")]; keys := [] |} =
      {| status := Terminated None;
         unread := [];
         trace := [EvList gvr "default"
                     {| Limit := 5; Continue := ""; LabelSelector := "" |} (Ok p);
                   EvOut txt_no_resources] |}.
Proof.
  exact (no_resources_only_on_empty_first_page okLib
           (sampleOptions "pods" 5 "" false)
           {| responses := [Ok (page 0 ""); Ok (page 4 "")]; keys := [] |}
           (or_introl eq_refl)).
Defined.

(** ** The second version *)

Lemma Dynamic_body_shape o ns gvr st r stdin :
  exists out stdin1 w,
    Dynamic.body o ns gvr st r stdin =
      (out, stdin1, EvList gvr ns (listOptions_of o st) r :: w) /\
    fetches w = [] /\
    forall st1, out = Next st1 ->
      exists l,
        r = Ok l /\ interactive o = true /\ GetContinue l <> "" /\
        keystroke stdin = Ok rune_n /\ st1 = continued (GetContinue l) /\
        stdin1 = tl stdin.
Proof.
  unfold_body. destruct r as [l|e]; simpl.
  2:{ do 3 eexists. split; [reflexivity|]. split; [reflexivity|discriminate]. }
  destruct (isFirstRequest st && (List.length (Items l) =? 0)%nat); simpl.
  { do 3 eexists. split; [reflexivity|]. split; [reflexivity|discriminate]. }
  destruct (ToPrinter (printFlags o)) as [printer|e]; simpl.
  2:{ do 3 eexists. split; [reflexivity|]. split; [reflexivity|discriminate]. }
  destruct (printer l); simpl.
  { do 3 eexists. split; [reflexivity|]. split; [reflexivity|discriminate]. }
  destruct (String.eqb_spec (GetContinue l) "") as [E|E]; simpl.
  { destruct (interactive o); simpl;
      do 3 eexists; (split; [reflexivity|]); (split; [reflexivity|discriminate]). }
  destruct (interactive o) eqn:Hi; simpl.
  2:{ do 3 eexists. split; [reflexivity|]. split; [reflexivity|discriminate]. }
  destruct stdin as [|[c|e] more]; simpl.
  - do 3 eexists. split; [reflexivity|]. split; [reflexivity|discriminate].
  - destruct (Z.eqb_spec c rune_n) as [->|Hc]; simpl;
      do 3 eexists; (split; [reflexivity|]); (split; [reflexivity|]).
    + intros st1 [= <-]. exists l. repeat split; trivial.
    + discriminate.
  - do 3 eexists. split; [reflexivity|]. split; [reflexivity|discriminate].
Qed.

Lemma Dynamic_forever_token_chain o ns gvr rs :
  forall st stdin,
    token_chain GetContinue (st_continueToken st)
      (fetches (trace (forever (Dynamic.body o ns gvr) rs st stdin))).
Proof.
  induction rs as [|r rs IH]; intros st stdin; [exact I|].
  destruct (Dynamic_body_shape o ns gvr st r stdin)
    as (out & s1 & w & E & Hw & Hn).
  destruct out as [err|st1].
  - rewrite (forever_return _ _ _ _ _ _ _ _ _ E). simpl. rewrite Hw.
    split; [reflexivity|]. destruct r; simpl; trivial.
  - destruct (Hn st1 eq_refl) as (l & -> & _ & _ & _ & -> & _).
    rewrite (forever_next _ _ _ _ _ _ _ _ _ E). simpl.
    rewrite fetches_app, Hw. simpl.
    split; [reflexivity|]. apply (IH (continued (GetContinue l))).
Qed.

(** The second version hands tokens on in the same way: in every run the
    first request carries the [--continue] value and each later request
    carries, unchanged, what [GetContinue] returned for the list before
    it; no request follows a failed one. *)
Theorem Dynamic_token_chain (lib : Library) (o : PeekOptions)
    (env : Env UnstructuredList) :
  token_chain GetContinue (continueToken o)
    (fetches (trace (Dynamic.Run lib o env))).
Proof.
  unfold Dynamic.Run.
  destruct (getResourceGVR lib o) as [gvr|e]; [|exact I].
  apply (Dynamic_forever_token_chain o _ gvr (responses env) (Dynamic.initial o)).
Qed.

(** The second version returns as the first does: when the lists served
    end with one that has no token, the run returns, whatever the input and
    the printer, after at most as many requests as there are lists. *)
Theorem Dynamic_terminates (lib : Library) (o : PeekOptions)
    (init : list UnstructuredList) (final : UnstructuredList)
    (stdin : list (result rune)) :
  GetContinue final = "" ->
  exists err,
    status (Dynamic.Run lib o
              {| responses := map Ok (init ++ [final]); keys := stdin |})
      = Terminated err /\
    List.length (fetches (trace (Dynamic.Run lib o
                   {| responses := map Ok (init ++ [final]); keys := stdin |})))
      <= List.length (init ++ [final]).
Proof.
  intros Hfin. unfold Dynamic.Run.
  destruct (getResourceGVR lib o) as [gvr|e].
  2:{ exists (Some e). simpl. split; [reflexivity|lia]. }
  cbn [responses keys].
  generalize (Dynamic.initial o) as st. revert stdin.
  induction init as [|p init IH]; intros stdin st; simpl map.
  - destruct (Dynamic_body_shape o (Dynamic.scope o) gvr st (Ok final) stdin)
      as (out & s1 & w & E & Hw & Hn).
    destruct out as [err|st1].
    + rewrite (forever_return _ _ _ _ _ _ _ _ _ E). simpl. rewrite Hw.
      exists err. split; [reflexivity|]. simpl. lia.
    + destruct (Hn st1 eq_refl) as (l & [= <-] & _ & Ht & _). contradiction.
  - destruct (Dynamic_body_shape o (Dynamic.scope o) gvr st (Ok p) stdin)
      as (out & s1 & w & E & Hw & Hn).
    destruct out as [err|st1].
    + rewrite (forever_return _ _ _ _ _ _ _ _ _ E). simpl. rewrite Hw.
      exists err. split; [reflexivity|]. simpl. lia.
    + rewrite (forever_next _ _ _ _ _ _ _ _ _ E).
      destruct (IH s1 st1) as (err & Hs & Hl).
      exists err. split; [exact Hs|].
      simpl. rewrite fetches_app, Hw. simpl. simpl in Hl. lia.
Qed.

(** The theorem at seven items in lists of five, input [n]. *)
Lemma Dynamic_terminates_witness :
  exists err,
    status (Dynamic.Run okLib (sampleOptions "pods" 5 "" true)
              {| responses := map Ok ([upage 5 "t1"] ++ [upage 2 ""]);
                 keys := [Ok rune_n] |}) = Terminated err /\
    List.length (fetches (trace (Dynamic.Run okLib (sampleOptions "pods" 5 "" true)
                   {| responses := map Ok ([upage 5 "t1"] ++ [upage 2 ""]);
                      keys := [Ok rune_n] |})))
      <= List.length ([upage 5 "t1"] ++ [upage 2 ""]).
Proof.
  exact (Dynamic_terminates okLib (sampleOptions "pods" 5 "" true)
           [upage 5 "t1"] (upage 2 "") [Ok rune_n] eq_refl).
Defined.

(** When [ToPrinter] has no printer for the output format, a run of the
    second version still sends its first request, and only that one: on a
    list with items it returns the error of [ToPrinter] with nothing
    written and the printer not called, in either mode; on an empty first
    list it writes [No resources found.] and returns [nil], the printer
    not having been asked for. *)
Theorem Dynamic_printer_unavailable (lib : Library) (o : PeekOptions)
    (gvr : GroupVersionResource) (e : error) (l : UnstructuredList)
    (rest : list (result UnstructuredList)) (stdin : list (result rune)) :
  getResourceGVR lib o = Ok gvr ->
  ToPrinter (printFlags o) = Err e ->
  Dynamic.Run lib o {| responses := Ok l :: rest; keys := stdin |} =
    {| status := Terminated (if (List.length (Items l) =? 0)%nat
                             then None else Some e);
       unread := stdin;
       trace := EvList gvr (Dynamic.scope o)
                  (listOptions_of o (Dynamic.initial o)) (Ok l) ::
                (if (List.length (Items l) =? 0)%nat
                 then [EvOut ("No resources found." ++ nl)] else []) |}.
Proof.
  intros G P. unfold Dynamic.Run. rewrite G. cbn [responses keys].
  apply forever_return. unfold_body. simpl. rewrite P.
  destruct (List.length (Items l) =? 0)%nat; reflexivity.
Qed.

(** The theorem at [-o bogus] on three pods. *)
Lemma Dynamic_printer_unavailable_witness :
  Dynamic.Run okLib
    (withPrintFlags (sampleOptions "pods" 3 "" false) badPrintFlags)
    {| responses := [Ok (upage 3 "t1")]; keys := [] |} =
  {| status := Terminated
       (Some "unable to match a printer suitable for the output format");
     unread := [];
     trace := [EvList podsGVR "default"
                 {| Limit := 3; Continue := ""; LabelSelector := "" |}
                 (Ok (upage 3 "t1"))] |}.
Proof.
  exact (Dynamic_printer_unavailable okLib
           (withPrintFlags (sampleOptions "pods" 3 "" false) badPrintFlags)
           podsGVR _ (upage 3 "t1") [] [] eq_refl eq_refl).
Defined.

(** ** More on resolution and on the REST client *)

Lemma Split_trailing name sep :
  Count name sep = 0 -> Split (name ++ String sep "") sep = [name; ""].
Proof.
  induction name as [|c name IH]; simpl.
  - intros _. now rewrite Ascii.eqb_refl.
  - destruct (Ascii.eqb c sep); simpl; [discriminate|].
    intros H. now rewrite (IH H).
Qed.

Lemma Count_app a b sep : Count (a ++ b) sep = Count a sep + Count b sep.
Proof.
  induction a as [|c a IH]; simpl; [reflexivity|]. rewrite IH. lia.
Qed.

(** Arguments off the two supported forms.  With two or more dots the
    whole lower-cased string is looked up as a resource name, no group
    being split off.  A single trailing dot is dropped: [name.] is looked
    up exactly as [name].  A single leading dot gives an empty resource
    name with the rest as group.  The version is always left empty. *)
Theorem gvrToFind_edge_forms (arg : string) :
  (2 <= Count arg "." ->
   gvrToFind arg = {| Group := ""; Version := ""; Resource := arg |}) /\
  (Count arg "." = 0 ->
   gvrToFind (arg ++ ".") = gvrToFind arg /\
   gvrToFind (String "." arg) =
     {| Group := arg; Version := ""; Resource := "" |}) /\
  Version (gvrToFind arg) = "".
Proof.
  split; [|split].
  - intros H. apply gvrToFind_other. lia.
  - intros H. split.
    + rewrite (gvrToFind_other arg) by lia.
      unfold gvrToFind. now rewrite (Split_trailing _ _ H).
    + unfold gvrToFind. simpl. now rewrite (Split_no_sep _ _ H).
  - unfold gvrToFind. destruct (List.length (Split arg ".") =? 2)%nat;
      reflexivity.
Qed.

(** The theorem at [widgets.example.com] and at [pods.]. *)
Lemma gvrToFind_edge_forms_witness :
  gvrToFind "widgets.example.com" =
    {| Group := ""; Version := ""; Resource := "widgets.example.com" |} /\
  gvrToFind ("pods" ++ ".") = gvrToFind "pods".
Proof.
  split.
  - apply (proj1 (gvrToFind_edge_forms "widgets.example.com")). simpl. lia.
  - apply (proj1 (proj2 (gvrToFind_edge_forms "pods"))). reflexivity.
Defined.

Lemma lowerByte_idempotent c : lowerByte (lowerByte c) = lowerByte c.
Proof.
  unfold lowerByte. destruct (isUpper c) eqn:U; [|now rewrite U].
  unfold isUpper, byte in *. apply andb_true_iff in U as [U1 U2].
  apply N.leb_le in U1, U2.
  rewrite N_ascii_embedding by lia.
  destruct (N.leb_spec 65 (N_of_ascii c + 32)); simpl; [|reflexivity].
  destruct (N.leb_spec (N_of_ascii c + 32) 90); [lia|reflexivity].
Qed.

Lemma lowerByte_ascii c : isASCII c = true -> isASCII (lowerByte c) = true.
Proof.
  unfold lowerByte. destruct (isUpper c) eqn:U; [|trivial].
  unfold isUpper, isASCII, byte in *. apply andb_true_iff in U as [U1 U2].
  apply N.leb_le in U1, U2. intros _.
  rewrite N_ascii_embedding by lia. apply N.ltb_lt. lia.
Qed.

Lemma ToLower_ascii lib s :
  allBytes isASCII s = true ->
  ToLower lib s = mapBytes lowerByte s /\
  allBytes isASCII (mapBytes lowerByte s) = true /\
  mapBytes lowerByte (mapBytes lowerByte s) = mapBytes lowerByte s.
Proof.
  intros H. split; [unfold ToLower; now rewrite H|].
  induction s as [|c s IH]; simpl in *; [split; reflexivity|].
  apply andb_true_iff in H as [Hc Hs]. destruct (IH Hs) as [I1 I2].
  rewrite (lowerByte_ascii _ Hc), I1, lowerByte_idempotent, I2.
  split; reflexivity.
Qed.

(** Resolution ignores the case of ASCII letters: two ASCII arguments
    that differ only in case are looked up as the same partial GVR, so
    they resolve to the same resource or fail together, and the lower-case
    spelling of an argument resolves like the argument.  A failure names
    the argument as it was typed. *)
Theorem resolution_ignores_case (lib : Library) (o : PeekOptions)
    (r1 r2 : string) :
  allBytes isASCII r1 = true ->
  allBytes isASCII r2 = true ->
  mapBytes lowerByte r1 = mapBytes lowerByte r2 ->
  (forall gvr,
     getResourceGVR lib (set_resource o r1) = Ok gvr <->
     getResourceGVR lib (set_resource o r2) = Ok gvr) /\
  (forall gvr,
     getResourceGVR lib (set_resource o r1) = Ok gvr <->
     getResourceGVR lib (set_resource o (mapBytes lowerByte r1)) = Ok gvr) /\
  (forall e,
     getResourceGVR lib (set_resource o r1) = Err e ->
     e = msg_unknown ++ Quote lib r1 /\
     getResourceGVR lib (set_resource o r2) = Err (msg_unknown ++ Quote lib r2)).
Proof.
  intros H1 H2 H.
  destruct (ToLower_ascii lib r1 H1) as (L1 & A1 & I1).
  destruct (ToLower_ascii lib r2 H2) as (L2 & _ & _).
  destruct (ToLower_ascii lib _ A1) as (L3 & _ & _).
  unfold getResourceGVR, Errorf_q. simpl.
  rewrite L1, L2, L3, I1, <- H.
  destruct (mapper o (gvrToFind (mapBytes lowerByte r1))) as [g|e0].
  - split; [|split]; intros; try tauto; discriminate.
  - split; [|split]; intros; try (split; intros X; discriminate X).
    split; congruence.
Qed.

(** The theorem at [Pods] and [PODS]. *)
Lemma resolution_ignores_case_witness :
  getResourceGVR okLib (set_resource (sampleOptions "" 10 "" false) "Pods")
    = Ok podsGVR <->
  getResourceGVR okLib (set_resource (sampleOptions "" 10 "" false) "PODS")
    = Ok podsGVR.
Proof.
  exact (proj1 (resolution_ignores_case okLib (sampleOptions "" 10 "" false)
                  "Pods" "PODS" eq_refl eq_refl eq_refl) podsGVR).
Defined.




(** ** Failures inside the loop *)

Lemma forever_failures lib o ns gvr rs :
  forall st stdin,
    (forall opts e,
       In (opts, Err e)
          (fetches (trace (forever (RestTable.body lib o ns gvr) rs st stdin))) ->
       status (forever (RestTable.body lib o ns gvr) rs st stdin)
         = Terminated (Some e) /\
       exists tr0,
         trace (forever (RestTable.body lib o ns gvr) rs st stdin)
           = (tr0 ++ [EvList gvr ns opts (Err e)])%list) /\
    (forall p e,
       In p (printed (trace (forever (RestTable.body lib o ns gvr) rs st stdin))) ->
       TablePrinter lib p = Some e ->
       status (forever (RestTable.body lib o ns gvr) rs st stdin)
         = Terminated (Some e) /\
       exists tr0,
         trace (forever (RestTable.body lib o ns gvr) rs st stdin)
           = (tr0 ++ [EvPrintObj p])%list).
Proof.
  apply (forever_induction Table (RestTable.body lib o ns gvr)
    (fun _ _ _ x =>
       (forall opts e,
          In (opts, Err e) (fetches (trace x)) ->
          status x = Terminated (Some e) /\
          exists tr0, trace x = (tr0 ++ [EvList gvr ns opts (Err e)])%list) /\
       (forall p e,
          In p (printed (trace x)) -> TablePrinter lib p = Some e ->
          status x = Terminated (Some e) /\
          exists tr0, trace x = (tr0 ++ [EvPrintObj p])%list))).
  - intros st stdin. split; intros ? ? [].
  - intros r rest st stdin err stdin1 w E.
    return_cases lib o ns gvr st r stdin E; subst r;
      (split; [intros x y H|intros x y H He]); simpl in H;
      try (destruct (interactive o); simpl in H);
      try contradiction;
      try (destruct H as [H|[]]; try discriminate H; subst; try congruence).
    all: try (injection H as <- <-; split; [reflexivity|];
              exists []; reflexivity).
    all: assert (pe = y) by congruence; subst; split; [reflexivity|];
         eexists [_]; reflexivity.
  - intros r rest st stdin st1 stdin1 w E (IH1 & IH2).
    destruct (body_next_inv _ _ _ _ _ _ _ _ _ _ E)
      as (t & -> & _ & Hpr & _ & _ & _ & _ & ->).
    split.
    + intros opts e. simpl. intros [H|H]; [discriminate H|].
      destruct (IH1 _ _ H) as (S & tr0 & T). split; [exact S|].
      rewrite T. eexists (_ :: _ :: _ :: _ :: _ :: tr0). reflexivity.
    + intros p e. simpl. intros [<-|H] He; [congruence|].
      destruct (IH2 _ _ H He) as (S & tr0 & T). split; [exact S|].
      rewrite T. eexists (_ :: _ :: _ :: _ :: _ :: tr0). reflexivity.
Qed.

(** A failure inside the loop ends the run where it happens.  When a list
    request fails, or the printer fails on a page, the run returns that
    error and the failed call is the last event of the trace: nothing is
    written or read after it, no further request is sent, and what the
    earlier passes wrote stays as it was. *)
Theorem failure_ends_the_run (lib : Library) (o : PeekOptions)
    (env : Env Table) :
  (forall opts e,
     In (opts, Err e) (fetches (trace (RestTable.Run lib o env))) ->
     status (RestTable.Run lib o env) = Terminated (Some e) /\
     exists tr0 gvr ns,
       trace (RestTable.Run lib o env)
         = (tr0 ++ [EvList gvr ns opts (Err e)])%list) /\
  (forall p e,
     In p (printed (trace (RestTable.Run lib o env))) ->
     TablePrinter lib p = Some e ->
     status (RestTable.Run lib o env) = Terminated (Some e) /\
     exists tr0,
       trace (RestTable.Run lib o env) = (tr0 ++ [EvPrintObj p])%list).
Proof.
  destruct (Run_cases lib o env) as [(e1 & -> & _)|(g & c & _ & _ & ->)].
  - split; intros ? ? [].
  - destruct (forever_failures lib o (RestTable.scope o) g (responses env)
                (RestTable.initial o) (keys env)) as (F1 & F2).
    split; [|exact F2].
    intros opts e H. destruct (F1 _ _ H) as (S & tr0 & T).
    split; [exact S|]. now exists tr0, g, (RestTable.scope o).
Qed.

(** The theorem at a session whose second request is refused. *)
Lemma failure_ends_the_run_witness :
  status (RestTable.Run okLib (sampleOptions "pods" 5 "" true)
            {| responses := [Ok (page 5 "t1"); Err "connection refused";
                             Ok (page 2 "")];
               keys := [Ok rune_n; Ok rune_n] |})
    = Terminated (Some "connection refused").
Proof.
  exact (proj1 (proj1 (failure_ends_the_run okLib
                         (sampleOptions "pods" 5 "" true)
            {| responses := [Ok (page 5 "t1"); Err "connection refused";
                             Ok (page 2 "")];
               keys := [Ok rune_n; Ok rune_n] |})
                  {| Limit := 5; Continue := "t1"; LabelSelector := "" |}
                  "connection refused"
                  (or_intror (or_introl eq_refl)))).
Defined.
